(** * okteto: development-mode translation and pod polling

  A shallow embedding of four source files of the repository:
  - [pkg/model] (the manifest [Dev], [FullSubPath], [ToTranslationRule]),
  - [pkg/k8s/deployments] ([Get], [DevModeOff], [update]),
  - [pkg/k8s/pods] ([GetByLabel], [isDeploymentFailed], [Restart],
    [waitUntilRunning], [isRunning]),
  - the tests of [TranslateResources] and [TranslateSecurityContext].

  The cluster API client is an external collaborator: every function
  that talks to it takes the answers of the cluster as an argument and,
  where a claim is about the calls made, returns the calls it issued. *)

From Stdlib Require Import ZArith String Ascii List Lia Bool DecimalString.
From stdpp Require Import base gmap strings list.

Local Open Scope string_scope.

(** ** Go's [strings], [fmt] and [path/filepath] as far as the code uses them *)

Module strings.

(** [strings.HasPrefix s p]. *)
Fixpoint HasPrefix (s p : string) : bool :=
  match p, s with
  | EmptyString, _ => true
  | String _ _, EmptyString => false
  | String a p', String b s' => if Ascii.eqb a b then HasPrefix s' p' else false
  end.

(** [strings.Contains s substr]: [substr] starts at some position of [s]. *)
Fixpoint Contains (s substr : string) : bool :=
  HasPrefix s substr
  || match s with
     | EmptyString => false
     | String _ s' => Contains s' substr
     end.

(** [strings.Join elems sep]. *)
Fixpoint Join (elems : list string) (sep : string) : string :=
  match elems with
  | [] => ""
  | [e] => e
  | e :: rest => e +:+ sep +:+ Join rest sep
  end.

(** [strings.Split s "/"]: the components between the slashes; always at
    least one component. *)
Fixpoint SplitSlash (s : string) : list string :=
  match s with
  | EmptyString => [""]
  | String c r =>
      if Ascii.eqb c "/" then "" :: SplitSlash r
      else match SplitSlash r with
           | h :: t => String c h :: t
           | [] => [String c ""]
           end
  end.

End strings.

Module fmt.

(** The verb [%d] on a non-negative [int]. *)
Definition itoa (n : nat) : string := NilEmpty.string_of_uint (Nat.to_uint n).

End fmt.

Module filepath.

(** One step of the scan of [filepath.Clean] over a path component. The
    output is kept as a stack of components, last one first. An empty
    component (a doubled slash) and [.] are dropped; [..] removes the
    last real component, is kept in a relative path when there is none to
    remove, and is dropped at the root; anything else is pushed. *)
Definition clean_step (rooted : bool) (out : list string) (c : string) : list string :=
  if bool_decide (c = "") then out
  else if bool_decide (c = ".") then out
  else if bool_decide (c = "..") then
    match out with
    | top :: below =>
        if bool_decide (top = "..") then c :: out else below
    | [] => if rooted then out else [c]
    end
  else c :: out.

(** [filepath.Clean] on a Unix path. *)
Definition Clean (path : string) : string :=
  match path with
  | EmptyString => "."
  | String c0 _ =>
      let rooted := Ascii.eqb c0 "/" in
      let out := fold_left (clean_step rooted) (strings.SplitSlash path) [] in
      let body := strings.Join (rev out) "/" in
      if rooted then "/" +:+ body
      else if bool_decide (body = "") then "." else body
  end.

(** [filepath.Join]: the elements before the first non-empty one are
    ignored, the rest is joined with slashes and cleaned; no non-empty
    element gives the empty string. *)
Fixpoint Join (elem : list string) : string :=
  match elem with
  | [] => ""
  | e :: rest =>
      if bool_decide (e = "") then Join rest
      else Clean (strings.Join elem "/")
  end.

End filepath.

(** ** [pkg/errors] *)

Module errors.

(** Modelled from the spec: package [pkg/errors] is not among the source
    files. Section 7 of the specification separates NotFound from the
    classified failures (quota exceeded among them) and from every other
    error, which is carried by its message. The client reports a missing
    object by a message that contains [not found], the test [Restart] and
    [Destroy] apply to [err.Error()]. *)
Inductive error : Type :=
| ErrNotFound
| ErrQuota
| Errorf (msg : string).

(** [err.Error()]. The specification does not fix the texts of the two
    named errors; the ones here keep [IsNotFound] in line with the
    substring test on the text, and no property depends on them. *)
Definition Error (e : error) : string :=
  match e with
  | ErrNotFound => "not found"
  | ErrQuota => "Quota exceeded, please free some resources and try again"
  | Errorf msg => msg
  end.

Definition IsNotFound (e : error) : bool :=
  match e with
  | ErrNotFound => true
  | ErrQuota => false
  | Errorf msg => strings.Contains msg "not found"
  end.

#[export] Instance error_eq_dec : EqDecision error.
Proof. solve_decision. Defined.

End errors.
Export errors.

(** ** The Kubernetes objects, with the fields the code reads or writes *)

Module metav1.

(** [metav1.ObjectMeta]. A nil map and an empty one behave alike in the
    code (reads give the zero value, [delete] does nothing), so label and
    annotation maps are plain finite maps. *)
Record ObjectMeta : Type := {
  Name : string;
  Namespace : string;
  ResourceVersion : string;
  Labels : gmap string string;
  Annotations : gmap string string;
  DeletionTimestamp : option Z
}.

Definition SetAnnotations (o : ObjectMeta) (a : gmap string string) : ObjectMeta :=
  {| Name := Name o; Namespace := Namespace o; ResourceVersion := ResourceVersion o;
     Labels := Labels o; Annotations := a; DeletionTimestamp := DeletionTimestamp o |}.

Definition SetLabels (o : ObjectMeta) (l : gmap string string) : ObjectMeta :=
  {| Name := Name o; Namespace := Namespace o; ResourceVersion := ResourceVersion o;
     Labels := l; Annotations := Annotations o; DeletionTimestamp := DeletionTimestamp o |}.

Definition SetResourceVersion (o : ObjectMeta) (v : string) : ObjectMeta :=
  {| Name := Name o; Namespace := Namespace o; ResourceVersion := v;
     Labels := Labels o; Annotations := Annotations o;
     DeletionTimestamp := DeletionTimestamp o |}.

End metav1.

Module apiv1.

(** [resource.Quantity], by its value in thousandths ([MilliValue]). *)
Definition Quantity : Type := Z.

Definition Capability : Type := string.

Definition ResourceMemory : string := "memory".
Definition ResourceCPU : string := "cpu".

Record ResourceRequirements : Type := {
  Limits : gmap string Quantity;
  Requests : gmap string Quantity
}.

Record Capabilities : Type := {
  Add : list Capability;
  Drop : list Capability
}.

(** The security context a container carries after translation: the ids
    and the capability lists. *)
Record SecurityContext : Type := {
  RunAsUser : option Z;
  RunAsGroup : option Z;
  FSGroup : option Z;
  Capabilities_ : option Capabilities
}.

Record Container : Type := {
  c_Name : string;
  c_Image : string;
  c_Command : list string;
  c_Args : list string;
  c_Resources : ResourceRequirements;
  c_SecurityContext : option SecurityContext
}.

Record PodSpec : Type := {
  InitContainers : list Container;
  Containers : list Container
}.

Record PodTemplateSpec : Type := {
  t_ObjectMeta : metav1.ObjectMeta;
  t_Spec : PodSpec
}.

Inductive PodPhase : Type :=
| PodPending | PodRunning | PodSucceeded | PodFailed | PodUnknown.

Inductive ConditionStatus : Type :=
| ConditionTrue | ConditionFalse | ConditionUnknown.

Record ContainerStateWaiting : Type := {
  w_Reason : string;
  w_Message : string
}.

Record ContainerStateTerminated : Type := {
  ExitCode : Z
}.

Record ContainerState : Type := {
  Waiting : option ContainerStateWaiting;
  Terminated : option ContainerStateTerminated
}.

Record ContainerStatus : Type := {
  s_Name : string;
  State : ContainerState
}.

Definition PodReady : string := "Ready".

Record PodCondition : Type := {
  pc_Type : string;
  pc_Status : ConditionStatus
}.

Record PodStatus : Type := {
  Phase : PodPhase;
  Conditions : list PodCondition;
  InitContainerStatuses : list ContainerStatus
}.

Record Pod : Type := {
  p_ObjectMeta : metav1.ObjectMeta;
  p_Status : PodStatus
}.

#[export] Instance PodPhase_eq_dec : EqDecision PodPhase.
Proof. solve_decision. Defined.
#[export] Instance ConditionStatus_eq_dec : EqDecision ConditionStatus.
Proof. solve_decision. Defined.

End apiv1.

Module appsv1.

Definition DeploymentReplicaFailure : string := "ReplicaFailure".

Record DeploymentCondition : Type := {
  dc_Type : string;
  dc_Status : apiv1.ConditionStatus;
  dc_Reason : string;
  dc_Message : string
}.

Record DeploymentStatus : Type := {
  st_Replicas : Z;
  st_Conditions : list DeploymentCondition
}.

(** The zero value [appsv1.DeploymentStatus{}]. *)
Definition DeploymentStatus_zero : DeploymentStatus :=
  {| st_Replicas := 0; st_Conditions := [] |}.

Record DeploymentSpec : Type := {
  Replicas : option Z;
  Template : apiv1.PodTemplateSpec
}.

Record Deployment : Type := {
  d_ObjectMeta : metav1.ObjectMeta;
  d_Spec : DeploymentSpec;
  d_Status : DeploymentStatus
}.

End appsv1.

(** ** [pkg/model]: the manifest and its translation rule *)

Module model.

Definition oktetoVolumeName : string := "okteto".
Definition OktetoInitContainer : string := "okteto-init".
Definition TranslationVersion : string := "1.0".

Record Capabilities : Type := {
  Add : list apiv1.Capability;
  Drop : list apiv1.Capability
}.

Record SecurityContext : Type := {
  RunAsUser : option Z;
  RunAsGroup : option Z;
  FSGroup : option Z;
  Capabilities_ : option Capabilities
}.

Record EnvVar : Type := { ev_Name : string; ev_Value : string }.

Record Forward : Type := { Local : Z; Remote : Z }.

Record ResourceRequirements : Type := {
  Limits : gmap string apiv1.Quantity;
  Requests : gmap string apiv1.Quantity
}.

(** A [*Dev] is an address in a store of manifests: the services of a
    manifest are pointers, and [ToTranslationRule] compares pointers. *)
Definition loc : Type := nat.

Record Dev : Type := {
  Name : string;
  Labels : gmap string string;
  Namespace : string;
  Container : string;
  Image : string;
  ImagePullPolicy : string;
  Environment : list EnvVar;
  Command : list string;
  WorkDir : string;
  MountPath : string;
  SubPath : string;
  Volumes : list string;
  SecurityContext_ : option SecurityContext;
  Forward_ : list Forward;
  Resources : ResourceRequirements;
  DevPath : string;
  DevDir : string;
  Services : list loc
}.

Record VolumeMount : Type := {
  vm_Name : string;
  vm_MountPath : string;
  vm_SubPath : string
}.

(** [TranslationRule]. [r_Command] and [r_Args] are slices the builder may
    leave unset: [None] is the nil slice, [Some []] the empty one. *)
Record TranslationRule : Type := {
  r_Container : string;
  r_Image : string;
  r_ImagePullPolicy : string;
  r_Environment : list EnvVar;
  r_WorkDir : string;
  r_Volumes : list VolumeMount;
  r_SecurityContext : option SecurityContext;
  r_Resources : ResourceRequirements;
  r_Healthchecks : bool;
  r_Command : option (list string);
  r_Args : option (list string)
}.

Record Translation : Type := {
  tr_Interactive : bool;
  tr_Name : string;
  tr_Marker : string;
  tr_Version : string;
  tr_Replicas : Z;
  tr_Rules : list TranslationRule
}.

(** [LabelsSelector]: the pairs [k=v] joined by a comma and a space. Go
    visits the map in an unspecified order; the order of [map_to_list]
    stands for it. *)
Definition LabelsSelector (dev : Dev) : string :=
  fold_left
    (fun labels kv =>
       if bool_decide (labels = "") then fst kv +:+ "=" +:+ snd kv
       else labels +:+ ", " +:+ fst kv +:+ "=" +:+ snd kv)
    (map_to_list (Labels dev)) "".

(** [FullSubPath]: the source does not use its argument [subPath]. *)
Definition FullSubPath (dev : Dev) (i : nat) (subPath : string) : string :=
  if bool_decide (SubPath dev = "") then
    filepath.Join [Name dev; "data-" +:+ fmt.itoa i]
  else
    filepath.Join [Name dev; "data-" +:+ fmt.itoa i; SubPath dev].

Definition set_command (r : TranslationRule) (hc : bool)
    (cmd args : option (list string)) : TranslationRule :=
  {| r_Container := r_Container r; r_Image := r_Image r;
     r_ImagePullPolicy := r_ImagePullPolicy r; r_Environment := r_Environment r;
     r_WorkDir := r_WorkDir r; r_Volumes := r_Volumes r;
     r_SecurityContext := r_SecurityContext r; r_Resources := r_Resources r;
     r_Healthchecks := hc; r_Command := cmd; r_Args := args |}.

Definition set_volumes (r : TranslationRule) (vs : list VolumeMount) : TranslationRule :=
  {| r_Container := r_Container r; r_Image := r_Image r;
     r_ImagePullPolicy := r_ImagePullPolicy r; r_Environment := r_Environment r;
     r_WorkDir := r_WorkDir r; r_Volumes := vs;
     r_SecurityContext := r_SecurityContext r; r_Resources := r_Resources r;
     r_Healthchecks := r_Healthchecks r; r_Command := r_Command r;
     r_Args := r_Args r |}.

(** The loop [for i, v := range dev.Volumes] of [ToTranslationRule],
    started at index [i] with the mounts [acc] collected so far. *)
Fixpoint append_volumes (main : Dev) (i : nat) (vs : list string)
    (acc : list VolumeMount) : list VolumeMount :=
  match vs with
  | [] => acc
  | v :: vs' =>
      append_volumes main (S i) vs'
        (acc ++ [{| vm_Name := oktetoVolumeName; vm_MountPath := v;
                    vm_SubPath := FullSubPath main (i + 1) (SubPath main) |}])
  end.

(** [ToTranslationRule], on the store [h]. The receiver [dev] and [main]
    are pointers; [None] is the nil dereference. The deployment argument
    of the source is unused. *)
Definition ToTranslationRule (h : gmap loc Dev) (dev main : loc) : option TranslationRule :=
  match h !! dev, h !! main with
  | Some d, Some m =>
      let rule :=
        {| r_Container := Container d; r_Image := Image d;
           r_ImagePullPolicy := ImagePullPolicy d; r_Environment := Environment d;
           r_WorkDir := WorkDir d;
           r_Volumes := [{| vm_Name := oktetoVolumeName; vm_MountPath := MountPath d;
                            vm_SubPath := FullSubPath m 0 (SubPath d) |}];
           r_SecurityContext := SecurityContext_ d; r_Resources := Resources d;
           r_Healthchecks := false; r_Command := None; r_Args := None |} in
      let rule :=
        if bool_decide (main = dev) then
          set_command rule false (Some ["tail"]) (Some ["-f"; "/dev/null"])
        else if (0 <? length (Command d))%nat then
          set_command rule true (Some (Command d)) (Some [])
        else
          set_command rule true (r_Command rule) (r_Args rule) in
      Some (set_volumes rule (append_volumes m 0 (Volumes d) (r_Volumes rule)))
  | _, _ => None
  end.

End model.

(** ** The cluster API client *)

Module kubernetes.

(** A Go result pair [(value, err)]. *)
Inductive result (A : Type) : Type :=
| Ok (a : A)
| Err (e : error).
Arguments Ok {A} a.
Arguments Err {A} e.

(** What the cluster answers at one moment. The first argument of every
    call is the namespace. *)
Record Clientset : Type := {
  GetDeployment : string -> string -> result appsv1.Deployment;
  ListDeployments : string -> string -> result (list appsv1.Deployment);
  UpdateDeployment : string -> appsv1.Deployment -> option error;
  ListPods : string -> string -> result (list apiv1.Pod);
  DeletePod : string -> string -> option error
}.

(** The calls that change or observe the cluster, as a function reports
    them. *)
Inductive Call : Type :=
| CallUpdateDeployment (ns : string) (d : appsv1.Deployment)
| CallListPods (ns selector : string)
| CallDeletePod (ns name : string).

End kubernetes.
Export kubernetes.

(** ** [pkg/k8s/deployments] *)

Module deployments.
Import metav1 apiv1 appsv1.

(** [Get]: a deployment by name, or the only one the labels select. *)
Definition Get (dev : model.Dev) (namespace : string) (c : Clientset)
    : result Deployment :=
  if bool_decide (namespace = "") then Err (Errorf "empty namespace")
  else if bool_decide (size (model.Labels dev) = 0%nat) then
    match GetDeployment c namespace (model.Name dev) with
    | Err err => Err err
    | Ok d => Ok d
    end
  else
    match ListDeployments c namespace (model.LabelsSelector dev) with
    | Err err => Err err
    | Ok [] => Err ErrNotFound
    | Ok [d] => Ok d
    | Ok items =>
        Err (Errorf ("Found '" +:+ fmt.itoa (length items) +:+ "' deployments instead of 1"))
    end.

(** Modelled from the spec: the helper [getAnnotation] is not among the
    source files. Section 6 keeps the persisted state as annotations of
    the object metadata; the helper reads one, and an annotation that is
    absent reads as the empty string. *)
Definition getAnnotation (o : ObjectMeta) (key : string) : string :=
  default "" (Annotations o !! key).

Definition set_ObjectMeta (d : Deployment) (o : ObjectMeta) : Deployment :=
  {| d_ObjectMeta := o; d_Spec := d_Spec d; d_Status := d_Status d |}.

Definition set_Status (d : Deployment) (s : DeploymentStatus) : Deployment :=
  {| d_ObjectMeta := d_ObjectMeta d; d_Spec := d_Spec d; d_Status := s |}.

Definition set_Replicas (d : Deployment) (n : option Z) : Deployment :=
  {| d_ObjectMeta := d_ObjectMeta d;
     d_Spec := {| Replicas := n; Template := Template (d_Spec d) |};
     d_Status := d_Status d |}.

Definition set_TemplateMeta (d : Deployment) (o : ObjectMeta) : Deployment :=
  {| d_ObjectMeta := d_ObjectMeta d;
     d_Spec := {| Replicas := Replicas (d_Spec d);
                Template := {| t_ObjectMeta := o;
                               t_Spec := t_Spec (Template (d_Spec d)) |} |};
     d_Status := d_Status d |}.

(** What a call leaves behind: the object the pointer [d] of the caller
    refers to, the calls issued in order, and the error returned. *)
Record Outcome : Type := {
  o_object : Deployment;
  o_calls : list Call;
  o_err : option error
}.

(** The object [update] sends: resource version and status cleared. *)
Definition cleared (d : Deployment) : Deployment :=
  set_Status (set_ObjectMeta d (SetResourceVersion (d_ObjectMeta d) "")) DeploymentStatus_zero.

(** [update]: clears the resource version and the status of [d] in place
    and writes [d]. *)
Definition update (d : Deployment) (c : Clientset) : Outcome :=
  let d' := cleared d in
  {| o_object := d';
     o_calls := [CallUpdateDeployment (Namespace (d_ObjectMeta d')) d'];
     o_err := UpdateDeployment c (Namespace (d_ObjectMeta d')) d' |}.

Section DevModeOff.

(** The annotation and label keys are constants of a file that is not
    among the sources, and [json.Unmarshal] is the standard library's:
    both are parameters. *)
Variables (OktetoTranslationAnnotation oktetoDeploymentAnnotation
           oktetoDeveloperAnnotation oktetoVersionAnnotation
           OktetoDevLabel : string).
Variable json_Unmarshal_Translation : string -> result model.Translation.
Variable json_Unmarshal_Deployment : string -> result Deployment.

(** The partial restore of the branch that found the translation. *)
Definition restore (d : Deployment) (trRules : model.Translation) : Deployment :=
  let d := set_Replicas d (Some (model.tr_Replicas trRules)) in
  let annotations := Annotations (d_ObjectMeta d) in
  let annotations := delete oktetoDeveloperAnnotation annotations in
  let annotations := delete oktetoVersionAnnotation annotations in
  let d := set_ObjectMeta d (SetAnnotations (d_ObjectMeta d) annotations) in
  let annotations := Annotations (t_ObjectMeta (Template (d_Spec d))) in
  let annotations := delete OktetoTranslationAnnotation annotations in
  let d := set_TemplateMeta d (SetAnnotations (t_ObjectMeta (Template (d_Spec d))) annotations) in
  let labels := Labels (d_ObjectMeta d) in
  let labels := delete OktetoDevLabel labels in
  set_ObjectMeta d (SetLabels (d_ObjectMeta d) labels).

(** [DevModeOff]. In the branch of the original manifest the local
    variable [d] is rebound to the deserialized object: the object of
    the caller stays as it was. *)
Definition DevModeOff (d : Deployment) (c : Clientset) : Outcome :=
  let trRulesJSON := getAnnotation (t_ObjectMeta (Template (d_Spec d))) OktetoTranslationAnnotation in
  if (String.length trRulesJSON =? 0)%nat then
    let dManifest := getAnnotation (d_ObjectMeta d) oktetoDeploymentAnnotation in
    if (String.length dManifest =? 0)%nat then
      {| o_object := d; o_calls := []; o_err := None |}
    else
      match json_Unmarshal_Deployment dManifest with
      | Err err =>
          {| o_object := d; o_calls := [];
             o_err := Some (Errorf ("malformed manifest: " +:+ Error err)) |}
      | Ok dOrig =>
          let w := update dOrig c in
          {| o_object := d; o_calls := o_calls w; o_err := o_err w |}
      end
  else
    match json_Unmarshal_Translation trRulesJSON with
    | Err err =>
        {| o_object := d; o_calls := [];
           o_err := Some (Errorf ("malformed tr rules: " +:+ Error err)) |}
    | Ok trRules => update (restore d trRules) c
    end.

End DevModeOff.

(** Modelled from the spec: [TranslateResources] is not among the source
    files (its test is). Section 4.2, step 4: for each of CPU and memory,
    independently for limits and for requests, a quantity the rule
    specifies overwrites the value of the container, and where the rule
    specifies nothing the value of the container, if any, is kept. *)
Definition merge_quantity (k : string) (rule cont : gmap string Quantity)
    : gmap string Quantity :=
  match rule !! k with
  | Some v => <[k := v]> cont
  | None => cont
  end.

Definition merge_list (rule cont : gmap string Quantity) : gmap string Quantity :=
  merge_quantity ResourceCPU rule (merge_quantity ResourceMemory rule cont).

Definition set_Resources (c : Container) (r : ResourceRequirements) : Container :=
  {| c_Name := c_Name c; c_Image := c_Image c; c_Command := c_Command c;
     c_Args := c_Args c; c_Resources := r; c_SecurityContext := c_SecurityContext c |}.

Definition TranslateResources (c : Container) (r : model.ResourceRequirements) : Container :=
  set_Resources c
    {| Requests := merge_list (model.Requests r) (Requests (c_Resources c));
       Limits := merge_list (model.Limits r) (Limits (c_Resources c)) |}.






End deployments.

(** ** [context]: why a context is done *)

Module context.

Inductive Reason : Type := Canceled | DeadlineExceeded.

(** [ctx.Err()] of a context that is done. *)
Definition Err (r : Reason) : error :=
  match r with
  | Canceled => Errorf "context canceled"
  | DeadlineExceeded => Errorf "context deadline exceeded"
  end.

End context.

(** ** [pkg/k8s/pods] *)

Module pods.
Import metav1 apiv1 appsv1.

Definition OktetoInteractiveDevLabel : string := "interactive.dev.okteto.com".
Definition OktetoDetachedDevLabel : string := "detached.dev.okteto.com".
Definition maxRetries : nat := 600.
Definition failedCreateReason : string := "FailedCreate".

(** The case the [select] at the end of an attempt takes. *)
Inductive Select : Type :=
| TickerC
| CtxDone (r : context.Reason).

(** What the outside world answers during the attempt that starts with
    [tries] completed attempts: the state of the cluster and the case of
    the [select]. *)
Record Moment : Type := {
  cluster : Clientset;
  selected : Select
}.

Definition World : Type := nat -> Moment.

(** The loop over [d.Status.Conditions] of [isDeploymentFailed]. *)
Fixpoint quotaFailure (conds : list DeploymentCondition) : option error :=
  match conds with
  | [] => None
  | c :: rest =>
      if bool_decide (dc_Type c = DeploymentReplicaFailure)
         && bool_decide (dc_Reason c = failedCreateReason)
         && bool_decide (dc_Status c = ConditionTrue)
         && strings.Contains (dc_Message c) "exceeded quota"
      then Some ErrQuota
      else quotaFailure rest
  end.

Definition isDeploymentFailed (dev : model.Dev) (c : Clientset) : option error :=
  match deployments.Get dev (model.Namespace dev) c with
  | Err err => if IsNotFound err then Some err else None
  | Ok d => quotaFailure (st_Conditions (d_Status d))
  end.

(** The checks on one init container status of a pod that is not running.
    The message of the waiting state is handed to [fmt.Errorf] as the
    format; it is kept as it is, as for a message without verbs. *)
Definition initStatusError (status : ContainerStatus) : option error :=
  if bool_decide (s_Name status = model.OktetoInitContainer) then
    let crashed :=
      match Terminated (State status) with
      | Some t => bool_decide (ExitCode t ≠ 0%Z)
      | None => false
      end in
    if crashed then
      Some (Errorf "Error initializing okteto volume. This is probably because your development image is not root. Please, add securityContext.runAsUser and securityContext.fsGroup to your deployment manifest")
    else
      match Waiting (State status) with
      | Some w =>
          if bool_decide (w_Reason w = "ErrImagePull")
             || bool_decide (w_Reason w = "ImagePullBackOff")
          then Some (Errorf (w_Message w)) else None
      | None => None
      end
  else None.

Fixpoint initError (statuses : list ContainerStatus) : option error :=
  match statuses with
  | [] => None
  | status :: rest =>
      match initStatusError status with
      | Some err => Some err
      | None => initError rest
      end
  end.

(** The loop over [pods.Items] of [GetByLabel]: it collects the running
    pods that are not being deleted, and returns from the function at the
    first pod that is not running and whose init container failed. *)
Fixpoint scanPods (items : list Pod) (runningPods : list Pod) : result (list Pod) :=
  match items with
  | [] => Ok runningPods
  | pod :: rest =>
      if bool_decide (Phase (p_Status pod) = PodRunning) then
        match DeletionTimestamp (p_ObjectMeta pod) with
        | None => scanPods rest (runningPods ++ [pod])
        | Some _ => scanPods rest runningPods
        end
      else
        match initError (InitContainerStatuses (p_Status pod)) with
        | Some err => Err err
        | None => scanPods rest runningPods
        end
  end.

(** One turn of the loop of [GetByLabel] either returns from the function
    or increments [tries]. *)
Inductive Step : Type :=
| Return (r : result Pod)
| Continue.

Definition errTimeout : error :=
  Errorf "kubernetes is taking too long to create the cloud native environment. Please check for errors and try again".

Definition attempt (w : World) (dev : model.Dev) (label : string)
    (waitUntilDeployed : bool) (tries : nat) : Step :=
  let selector := label +:+ "=" +:+ model.Name dev in
  match ListPods (cluster (w tries)) (model.Namespace dev) selector with
  | Err _ => Return (Err (Errorf "failed to retrieve dev environment information"))
  | Ok items =>
      let failed :=
        if (tries mod 10 =? 0)%nat && (length items =? 0)%nat then
          match isDeploymentFailed dev (cluster (w tries)) with
          | Some err =>
              if negb (IsNotFound err) then Some err
              else if negb waitUntilDeployed then Some err
              else None
          | None => None
          end
        else None in
      match failed with
      | Some err => Return (Err err)
      | None =>
          match scanPods items [] with
          | Err err => Return (Err err)
          | Ok [pod] => Return (Ok pod)
          | Ok _ =>
              match selected (w tries) with
              | TickerC => Continue
              | CtxDone r => Return (Err (context.Err r))
              end
          end
      end
  end.

(** The loop [for tries < maxRetries]; [fuel] is [maxRetries - tries]. *)
Fixpoint poll (w : World) (dev : model.Dev) (label : string)
    (waitUntilDeployed : bool) (fuel tries : nat) : result Pod :=
  match fuel with
  | O => Err errTimeout
  | S fuel' =>
      match attempt w dev label waitUntilDeployed tries with
      | Return r => r
      | Continue => poll w dev label waitUntilDeployed fuel' (S tries)
      end
  end.

Definition GetByLabel (w : World) (dev : model.Dev) (label : string)
    (waitUntilDeployed : bool) : result Pod :=
  poll w dev label waitUntilDeployed maxRetries 0.

Definition isRunning (p : Pod) : bool :=
  if bool_decide (Phase (p_Status p) ≠ PodRunning) then false
  else match DeletionTimestamp (p_ObjectMeta p) with
       | Some _ => false
       | None =>
           existsb (fun c => bool_decide (pc_Type c = PodReady)
                             && bool_decide (pc_Status c = ConditionTrue))
                   (Conditions (p_Status p))
       end.

(** The loop over [pods.Items] of [waitUntilRunning], from the values of
    [allRunning] and [notready] reached so far; a failed pod returns from
    the function. *)
Fixpoint classify (items : list Pod) (allRunning : bool) (notready : gset string)
    : result (bool * gset string) :=
  match items with
  | [] => Ok (allRunning, notready)
  | pod :: rest =>
      let name := Name (p_ObjectMeta pod) in
      match Phase (p_Status pod) with
      | PodPending => classify rest false ({[name]} ∪ notready)
      | PodFailed => Err (Errorf ("Pod " +:+ name +:+ " failed to start"))
      | PodRunning =>
          if isRunning pod then classify rest allRunning (notready ∖ {[name]})
          else classify rest false ({[name]} ∪ notready)
      | _ => classify rest allRunning notready
      end
  end.

(** The loop [for i := 0; i < 60; i++] of [waitUntilRunning]; [fuel] is
    [60 - i], and [w i] is the cluster at iteration [i]. The calls issued
    are returned with the error. [notready] is the key set of the map of
    the source; the final message lists it in the order of [elements],
    which stands for the unspecified order of a Go map. *)
Fixpoint waitLoop (w : nat -> Clientset) (namespace selector : string)
    (fuel i : nat) (notready : gset string) : list Call * option error :=
  match fuel with
  | O =>
      ([], Some (Errorf ("Pod(s) " +:+ strings.Join (elements notready) ","
                         +:+ " didn't restart after 60 seconds")))
  | S fuel' =>
      let call := CallListPods namespace selector in
      match ListPods (w i) namespace selector with
      | Err _ => ([call], Some (Errorf "failed to retrieve dev environment information"))
      | Ok items =>
          match classify items true notready with
          | Err err => ([call], Some err)
          | Ok (true, _) => ([call], None)
          | Ok (false, notready') =>
              let '(calls, err) := waitLoop w namespace selector fuel' (S i) notready' in
              (call :: calls, err)
          end
      end
  end.

Definition waitUntilRunning (w : nat -> Clientset) (namespace selector : string)
    : list Call * option error :=
  waitLoop w namespace selector 60 0 ∅.

(** The loop of [Restart] over the listed pods: [Some ret] when the loop
    returns [ret] from the function, [None] when it runs to its end. *)
Fixpoint deleteEach (c : Clientset) (namespace : string) (items : list Pod)
    : list Call * option (option error) :=
  match items with
  | [] => ([], None)
  | pod :: rest =>
      let name := Name (p_ObjectMeta pod) in
      match DeletePod c namespace name with
      | Some err =>
          if strings.Contains (Error err) "not found"
          then ([CallDeletePod namespace name], Some None)
          else ([CallDeletePod namespace name],
                Some (Some (Errorf ("error deleting kubernetes service: " +:+ Error err))))
      | None =>
          let '(calls, ret) := deleteEach c namespace rest in
          (CallDeletePod namespace name :: calls, ret)
      end
  end.

(** [Restart]: [c] answers the first list and the deletions, [w] the
    iterations of the wait. *)
Definition Restart (c : Clientset) (w : nat -> Clientset) (dev : model.Dev)
    : list Call * option error :=
  let namespace := model.Namespace dev in
  let selector := OktetoDetachedDevLabel +:+ "=" +:+ model.Name dev in
  match ListPods c namespace selector with
  | Err _ =>
      ([CallListPods namespace selector],
       Some (Errorf "failed to retrieve dev environment information"))
  | Ok items =>
      match deleteEach c namespace items with
      | (calls, Some ret) => (CallListPods namespace selector :: calls, ret)
      | (calls, None) =>
          let '(calls', err) := waitUntilRunning w namespace selector in
          (CallListPods namespace selector :: calls ++ calls', err)
      end
  end.

End pods.

(** * The notions the properties are stated with *)

Module Spec.
Import metav1 apiv1 appsv1 pods.

(** ** Polling *)

(** A listed pod counts towards success: it is running and is not being
    deleted. *)
Definition qualifies (pod : Pod) : bool :=
  bool_decide (Phase (p_Status pod) = PodRunning)
  && bool_decide (DeletionTimestamp (p_ObjectMeta pod) = None).

(** The error a listed pod ends the wait with: a pod that is not running
    and whose init container crashed or cannot pull its image. *)
Definition fatal (pod : Pod) : option error :=
  if bool_decide (Phase (p_Status pod) = PodRunning) then None
  else initError (InitContainerStatuses (p_Status pod)).

(** The condition [isDeploymentFailed] looks for. *)
Definition quotaExceeded (c : DeploymentCondition) : Prop :=
  dc_Type c = DeploymentReplicaFailure
  ∧ dc_Reason c = failedCreateReason
  ∧ dc_Status c = ConditionTrue
  ∧ strings.Contains (dc_Message c) "exceeded quota" = true.

(** Attempt [k] is made: every attempt before it went on to the next. *)
Definition reaches (w : World) (dev : model.Dev) (label : string)
    (waitUntilDeployed : bool) (k : nat) : Prop :=
  ∀ j, (j < k)%nat → attempt w dev label waitUntilDeployed j = Continue.



(** ** Restart *)

(** The pods [waitUntilRunning] still waits for after [n] iterations
    that started at iteration [i] with [notready]; [None] when one of
    these iterations returned. *)
Fixpoint waitFrom (w : nat → Clientset) (namespace selector : string)
    (i : nat) (notready : gset string) (n : nat) : option (gset string) :=
  match n with
  | O => Some notready
  | S n' =>
      match ListPods (w i) namespace selector with
      | Ok items =>
          match classify items true notready with
          | Ok (false, notready') => waitFrom w namespace selector (S i) notready' n'
          | _ => None
          end
      | Err _ => None
      end
  end.

(** ** Merging a rule into a container *)



(** What the merge of one quantity yields: the quantity of the rule when
    it has one, else what the container had. *)
Definition overwritten (rule cont : option Quantity) : option Quantity :=
  match rule with
  | Some q => Some q
  | None => cont
  end.

(** ** Sub-paths *)

Fixpoint noSlash (s : string) : bool :=
  match s with
  | EmptyString => true
  | String c r => negb (Ascii.eqb c "/") && noSlash r
  end.

(** A single path segment that [filepath.Clean] leaves as it is. *)
Definition plain (s : string) : Prop :=
  s ≠ "" ∧ s ≠ "." ∧ s ≠ ".." ∧ noSlash s = true.





End Spec.

(** * Concrete clusters and manifests *)

Module Examples.
Import metav1 apiv1 appsv1 pods.

Definition meta (name : string) : ObjectMeta :=
  {| Name := name; Namespace := "dev"; ResourceVersion := "41";
     Labels := ∅; Annotations := ∅; DeletionTimestamp := None |}.

Definition noResources : model.ResourceRequirements :=
  {| model.Limits := ∅; model.Requests := ∅ |}.

(** The manifest [web] of the translation test, once defaults are set. *)
Definition web : model.Dev :=
  {| model.Name := "web"; model.Labels := ∅; model.Namespace := "dev";
     model.Container := "dev"; model.Image := "web:latest";
     model.ImagePullPolicy := "Always"; model.Environment := [];
     model.Command := ["./run_web.sh"]; model.WorkDir := "/app";
     model.MountPath := "/app"; model.SubPath := ""; model.Volumes := [];
     model.SecurityContext_ := None; model.Forward_ := [];
     model.Resources := noResources; model.DevPath := "okteto.yml";
     model.DevDir := "/home/dev/web"; model.Services := [1%nat] |}.

Definition pod (name : string) (phase : PodPhase) (inits : list ContainerStatus) : Pod :=
  {| p_ObjectMeta := meta name;
     p_Status := {| Phase := phase; Conditions := []; InitContainerStatuses := inits |} |}.

Definition running : Pod := pod "web-7d9f" PodRunning [].

(** A pending pod whose [okteto-init] container exited with code 1. *)
Definition crashed : Pod :=
  pod "web-5c2a" PodPending
    [{| s_Name := "okteto-init";
        State := {| Waiting := None; Terminated := Some {| ExitCode := 1 |} |} |}].

Definition template : PodTemplateSpec :=
  {| t_ObjectMeta := meta "";
     t_Spec := {| InitContainers := []; Containers := [] |} |}.

Definition deployment (conds : list DeploymentCondition) : Deployment :=
  {| d_ObjectMeta := meta "web";
     d_Spec := {| Replicas := Some 1%Z; Template := template |};
     d_Status := {| st_Replicas := 0; st_Conditions := conds |} |}.

(** A deployment whose replica set cannot create pods for lack of quota. *)
Definition starved : Deployment :=
  deployment [{| dc_Type := "ReplicaFailure"; dc_Status := ConditionTrue;
                 dc_Reason := "FailedCreate";
                 dc_Message := "pods web-7d9f is forbidden: exceeded quota: compute" |}].

(** A cluster that lists [items] for every selector and answers every
    request for a deployment with [d]. *)
Definition clusterOf (items : list Pod) (d : result Deployment) : Clientset :=
  {| GetDeployment := fun _ _ => d;
     ListDeployments := fun _ _ => Ok [];
     UpdateDeployment := fun _ _ => None;
     ListPods := fun _ _ => Ok items;
     DeletePod := fun _ _ => None |}.

Definition steady (c : Clientset) (s : Select) : World :=
  fun _ => {| cluster := c; selected := s |}.

(** No pod is ever created: the quota of the namespace is exhausted. *)
Definition noQuota : World := steady (clusterOf [] (Ok starved)) TickerC.

(** No pod and no deployment yet. *)
Definition notDeployed : World :=
  steady (clusterOf [] (Err (Errorf "deployments.apps web not found"))) TickerC.


(** The same with a caller that has cancelled. *)
Definition cancelled : World :=
  steady (clusterOf [] (Ok (deployment []))) (CtxDone context.Canceled).

Definition ready : World := steady (clusterOf [running] (Ok (deployment []))) TickerC.

(** One running pod next to a pod whose init container crashed. *)
Definition halfBroken : World :=
  steady (clusterOf [running; crashed] (Ok (deployment []))) TickerC.

(** Two detached pods are listed; the first one is gone by the time it
    is deleted. *)
Definition gone : Clientset :=
  {| GetDeployment := fun _ _ => Ok (deployment []);
     ListDeployments := fun _ _ => Ok [];
     UpdateDeployment := fun _ _ => None;
     ListPods := fun _ _ => Ok [pod "worker-a" PodRunning []; pod "worker-b" PodRunning []];
     DeletePod := fun _ name =>
       if bool_decide (name = "worker-a") then Some (Errorf "pods worker-a not found")
       else None |}.

(** After the deletions the selector matches no pod. *)
Definition drained : nat → Clientset := fun _ => clusterOf [] (Ok (deployment [])).

(** One pending pod for two iterations, then none. *)
Definition draining : nat → Clientset :=
  fun i => if (i <? 2)%nat then clusterOf [pod "worker-b" PodPending []] (Ok (deployment []))
           else clusterOf [] (Ok (deployment [])).

(** A deployment in dev mode that existed before the session: the
    template carries the translation, the object the developer and version
    annotations and the dev label. The payload of the translation
    annotation is opaque here; [decodeTranslation] stands for
    [json.Unmarshal] and accepts this payload only. *)
Definition translationPayload : string := "translation:web:replicas=3".

Definition storedTranslation : model.Translation :=
  {| model.tr_Interactive := true; model.tr_Name := "web";
     model.tr_Marker := "okteto.yml"; model.tr_Version := model.TranslationVersion;
     model.tr_Replicas := 3; model.tr_Rules := [] |}.

Definition decodeTranslation (s : string) : result model.Translation :=
  if bool_decide (s = translationPayload) then Ok storedTranslation
  else Err (Errorf "unexpected end of JSON input").

Definition decodeDeployment (s : string) : result Deployment :=
  if bool_decide (s = "deployment:web") then Ok (deployment [])
  else Err (Errorf "unexpected end of JSON input").

Definition inDevMode : Deployment :=
  {| d_ObjectMeta :=
       {| Name := "web"; Namespace := "dev"; ResourceVersion := "41";
          Labels := {[ "dev.okteto.com" := "true"; "app" := "web" ]};
          Annotations := {[ "dev.okteto.com/developer" := "cindy";
                            "dev.okteto.com/version" := "1.0";
                            "team" := "store" ]};
          DeletionTimestamp := None |};
     d_Spec :=
       {| Replicas := Some 1%Z;
          Template :=
            {| t_ObjectMeta :=
                 {| Name := ""; Namespace := ""; ResourceVersion := "";
                    Labels := {[ "app" := "web" ]};
                    Annotations := {[ "dev.okteto.com/translation" := translationPayload ]};
                    DeletionTimestamp := None |};
               t_Spec := {| InitContainers := []; Containers := [] |} |} |};
     d_Status := {| st_Replicas := 1; st_Conditions := [] |} |}.

(** Quantities in thousandths: [quarterGi n] is [n] quarters of a gibibyte,
    so [quarterGi 1] is 0.25Gi and [quarterGi 8] is 2Gi; a CPU count of
    0.125 is 125. *)
Definition quarterGi (n : Z) : Quantity := (n * 268435456 * 1000)%Z.

Definition containerWith (r : ResourceRequirements) (s : option SecurityContext) : Container :=
  {| c_Name := "dev"; c_Image := "web:latest"; c_Command := []; c_Args := [];
     c_Resources := r; c_SecurityContext := s |}.

(** The case [limits-in-yaml-limits-in-container] of the test. *)
Definition sized : Container :=
  containerWith
    {| Limits := {[ ResourceMemory := quarterGi 1; ResourceCPU := 125%Z ]};
       Requests := {[ ResourceMemory := quarterGi 8; ResourceCPU := 1000%Z ]} |}
    None.

Definition resized : model.ResourceRequirements :=
  {| model.Limits := {[ ResourceMemory := quarterGi 4; ResourceCPU := 2000%Z ]};
     model.Requests := {[ ResourceMemory := quarterGi 16; ResourceCPU := 125%Z ]} |}.






(** The service [worker] of the translation test, and the store that
    holds [web] at address 0 and [worker] at address 1. *)
Definition worker : model.Dev :=
  {| model.Name := "worker"; model.Labels := ∅; model.Namespace := "";
     model.Container := "dev"; model.Image := "worker:latest";
     model.ImagePullPolicy := "Always"; model.Environment := [];
     model.Command := ["./run_worker.sh"]; model.WorkDir := "";
     model.MountPath := "/src"; model.SubPath := "/worker"; model.Volumes := [];
     model.SecurityContext_ := None; model.Forward_ := [];
     model.Resources := noResources; model.DevPath := "";
     model.DevDir := ""; model.Services := [] |}.

Definition manifests : gmap model.loc model.Dev := {[ 0%nat := web; 1%nat := worker ]}.



End Examples.

(** * The rest of the manifest, of the deployments and of the pods *)

(** ** [pkg/model]: defaults, validation, names *)

Module manifest.
Import model.

Definition PullAlways : string := "Always".
Definition PullIfNotPresent : string := "IfNotPresent".
Definition PullNever : string := "Never".

Definition errBadName : error :=
  Errorf "Invalid name: must consist of lower case alphanumeric characters or '-', and must start and end with an alphanumeric character".

(** [strings.HasSuffix s suffix]. *)
Definition HasSuffix (s suffix : string) : bool :=
  (String.length suffix <=? String.length s)%nat
  && bool_decide
       (String.substring (String.length s - String.length suffix)
          (String.length suffix) s = suffix).

(** A character of the class [a-z0-9\-]. *)
Definition kubeChar (c : ascii) : bool :=
  let n := nat_of_ascii c in
  ((97 <=? n) && (n <=? 122) || (48 <=? n) && (n <=? 57) || (n =? 45))%nat.

(** [ValidKubeNameRegex.MatchString]: the expression [[^a-z0-9\-]+]
    matches a string exactly when one of its characters is outside the
    class. Every byte of a character that is not ASCII is outside the
    class, so bytes decide as runes do. *)
Definition ValidKubeNameRegex_MatchString (s : string) : bool :=
  existsb (fun c => negb (kubeChar c)) (list_ascii_of_string s).

Definition validatePullPolicy (pullPolicy : string) : option error :=
  if bool_decide (pullPolicy = PullAlways) then None
  else if bool_decide (pullPolicy = PullIfNotPresent) then None
  else if bool_decide (pullPolicy = PullNever) then None
  else Some (Errorf "supported values for 'imagePullPolicy' are: 'Always', 'IfNotPresent' or 'Never'").

(** The loop of [validate] over the services; [None] is the dereference
    of a nil pointer. *)
Fixpoint validateServices (h : gmap loc Dev) (services : list loc)
    : option (option error) :=
  match services with
  | [] => Some None
  | s :: rest =>
      match h !! s with
      | None => None
      | Some sd =>
          match validatePullPolicy (ImagePullPolicy sd) with
          | Some err => Some (Some err)
          | None => validateServices h rest
          end
      end
  end.

(** [validate], on the store [h]: [Some None] when the manifest is valid,
    [Some (Some err)] when it is refused, [None] on a nil pointer. *)
Definition validate (h : gmap loc Dev) (dev : loc) : option (option error) :=
  match h !! dev with
  | None => None
  | Some d =>
      if bool_decide (Name d = "") then Some (Some (Errorf "Name cannot be empty"))
      else if ValidKubeNameRegex_MatchString (Name d) then Some (Some errBadName)
      else if strings.HasPrefix (Name d) "-" || HasSuffix (Name d) "-"
      then Some (Some errBadName)
      else
        match validatePullPolicy (ImagePullPolicy d) with
        | Some err => Some (Some err)
        | None => validateServices h (Services d)
        end
  end.

(** [GetStatefulSetName]: [okteto-<name>], cut after 52 bytes. *)
Definition GetStatefulSetName (dev : Dev) : string :=
  let n := "okteto-" +:+ Name dev in
  if (52 <? String.length n)%nat then String.substring 0 52 n else n.

Definition emptyResources : ResourceRequirements :=
  {| Limits := ∅; Requests := ∅ |}.

(** The mount path and the working directory after the two defaulting
    steps that [setDefaults] applies to the root and to every service. *)
Definition defaultPaths (mountPath workDir : string) : string * string :=
  let '(mountPath, workDir) :=
    if bool_decide (mountPath = "") && bool_decide (workDir = "")
    then ("/okteto", "/okteto") else (mountPath, workDir) in
  if negb (bool_decide (workDir = "")) && bool_decide (mountPath = "")
  then (workDir, workDir) else (mountPath, workDir).

Definition defaultPullPolicy (pullPolicy : string) : string :=
  if bool_decide (pullPolicy = "") then PullAlways else pullPolicy.

Section Defaults.

(** [uniqueStrings] is a function of a file that is not among the
    sources: a parameter. *)
Variable uniqueStrings : list string → list string.

(** What [setDefaults] does to the root manifest itself. *)
Definition rootDefaults (d : Dev) : Dev :=
  let paths := defaultPaths (MountPath d) (WorkDir d) in
  {| Name := Name d; Labels := Labels d; Namespace := Namespace d;
     Container := Container d; Image := Image d;
     ImagePullPolicy := defaultPullPolicy (ImagePullPolicy d);
     Environment := Environment d;
     Command := if (length (Command d) =? 0)%nat then ["sh"] else Command d;
     WorkDir := paths.2; MountPath := paths.1; SubPath := SubPath d;
     Volumes := uniqueStrings (Volumes d);
     SecurityContext_ := SecurityContext_ d; Forward_ := Forward_ d;
     Resources := Resources d; DevPath := DevPath d; DevDir := DevDir d;
     Services := Services d |}.

(** What the loop does to a service before it checks name and labels. *)
Definition servicePaths (s : Dev) : Dev :=
  let paths := defaultPaths (MountPath s) (WorkDir s) in
  {| Name := Name s; Labels := Labels s; Namespace := Namespace s;
     Container := Container s; Image := Image s;
     ImagePullPolicy := defaultPullPolicy (ImagePullPolicy s);
     Environment := Environment s; Command := Command s;
     WorkDir := paths.2; MountPath := paths.1; SubPath := SubPath s;
     Volumes := Volumes s;
     SecurityContext_ := SecurityContext_ s; Forward_ := Forward_ s;
     Resources := Resources s; DevPath := DevPath s; DevDir := DevDir s;
     Services := Services s |}.

(** What it does to a service after the check. *)
Definition serviceReset (s : Dev) : Dev :=
  {| Name := Name s; Labels := Labels s; Namespace := "";
     Container := Container s; Image := Image s;
     ImagePullPolicy := ImagePullPolicy s;
     Environment := Environment s; Command := Command s;
     WorkDir := WorkDir s; MountPath := MountPath s; SubPath := SubPath s;
     Volumes := [];
     SecurityContext_ := SecurityContext_ s; Forward_ := [];
     Resources := emptyResources; DevPath := DevPath s; DevDir := DevDir s;
     Services := [] |}.

(** The loop of [setDefaults] over the services. The services are
    pointers: each one is updated in the store, and an error leaves the
    store as the loop had it by then. [None] is a nil pointer. *)
Fixpoint defaultServices (h : gmap loc Dev) (services : list loc)
    : option (gmap loc Dev * option error) :=
  match services with
  | [] => Some (h, None)
  | s :: rest =>
      match h !! s with
      | None => None
      | Some sd =>
          let sd := servicePaths sd in
          if negb (bool_decide (Name sd = "")) && (0 <? size (Labels sd))%nat then
            Some (<[s := sd]> h,
                  Some (Errorf ("'name' and 'labels' cannot be defined at the same time for service '"
                                +:+ Name sd +:+ "'")))
          else defaultServices (<[s := serviceReset sd]> h) rest
      end
  end.

(** [setDefaults], on the store [h]. *)
Definition setDefaults (h : gmap loc Dev) (dev : loc)
    : option (gmap loc Dev * option error) :=
  match h !! dev with
  | None => None
  | Some d =>
      let d := rootDefaults d in
      defaultServices (<[dev := d]> h) (Services d)
  end.

(** [LoadRemote]. The security context is created when the manifest has
    none, and [SYS_PTRACE] is appended to its capabilities. *)
Definition LoadRemote (d : Dev) (localPort : Z) : Dev :=
  let sc := default {| RunAsUser := None; RunAsGroup := None; FSGroup := None;
                       Capabilities_ := None |} (SecurityContext_ d) in
  let caps := default {| Add := []; Drop := [] |} (Capabilities_ sc) in
  {| Name := Name d; Labels := Labels d; Namespace := Namespace d;
     Container := Container d; Image := Image d;
     ImagePullPolicy := ImagePullPolicy d;
     Environment := Environment d;
     Command := ["/var/okteto/bin/remote"];
     WorkDir := WorkDir d; MountPath := MountPath d; SubPath := SubPath d;
     Volumes := uniqueStrings (Volumes d ++ ["/root/.vscode-server"]);
     SecurityContext_ :=
       Some {| RunAsUser := RunAsUser sc; RunAsGroup := RunAsGroup sc;
               FSGroup := FSGroup sc;
               Capabilities_ := Some {| Add := Add caps ++ ["SYS_PTRACE"];
                                        Drop := Drop caps |} |};
     Forward_ := Forward_ d ++ [{| Local := localPort; Remote := 22000 |}];
     Resources := Resources d; DevPath := DevPath d; DevDir := DevDir d;
     Services := Services d |}.

End Defaults.

End manifest.

(** ** [pkg/k8s/deployments]: dev mode and translations *)

Module workloads.
Import metav1 apiv1 appsv1.

Section DevLabel.

(** The key of the dev label is a constant of a file that is not among the
    sources: a parameter, as for [DevModeOff]. *)
Variable OktetoDevLabel : string.

Definition IsDevModeOn (d : Deployment) : bool :=
  bool_decide (is_Some (Labels (d_ObjectMeta d) !! OktetoDevLabel)).

End DevLabel.

(** An entry of the map [GetTranslations] returns: the translation and the
    deployment its field [Deployment] points to. *)
Definition Bound : Type := Deployment * model.Translation.

Definition add_rule (t : model.Translation) (rule : model.TranslationRule)
    : model.Translation :=
  {| model.tr_Interactive := model.tr_Interactive t; model.tr_Name := model.tr_Name t;
     model.tr_Marker := model.tr_Marker t; model.tr_Version := model.tr_Version t;
     model.tr_Replicas := model.tr_Replicas t;
     model.tr_Rules := model.tr_Rules t ++ [rule] |}.

(** The loop of [GetTranslations] over the services of the root manifest
    [root], which lives at address [dev] of the store [h]. The outer [None]
    is a nil dereference: of a service, which [Get] reads once the
    namespace is not empty, or of the replica count of a deployment that
    gets a translation of its own. *)
Fixpoint translateServices (h : gmap model.loc model.Dev) (dev : model.loc)
    (root : model.Dev) (c : Clientset) (services : list model.loc)
    (translations : gmap string Bound) : option (result (gmap string Bound)) :=
  match services with
  | [] => Some (Ok translations)
  | s :: rest =>
      let got :=
        match h !! s with
        | Some sd => Some (deployments.Get sd (model.Namespace root) c)
        | None =>
            if bool_decide (model.Namespace root = "")
            then Some (Err (Errorf "empty namespace")) else None
        end in
      match got with
      | None => None
      | Some (Err err) =>
          if IsNotFound err then translateServices h dev root c rest translations
          else Some (Err err)
      | Some (Ok d) =>
          match model.ToTranslationRule h s dev with
          | None => None
          | Some rule =>
              let name := Name (d_ObjectMeta d) in
              match translations !! name with
              | Some (d0, t) =>
                  translateServices h dev root c rest
                    (<[name := (d0, add_rule t rule)]> translations)
              | None =>
                  match Replicas (d_Spec d) with
                  | None => None
                  | Some replicas =>
                      translateServices h dev root c rest
                        (<[name := (d, {| model.tr_Interactive := false;
                                          model.tr_Name := model.Name root;
                                          model.tr_Marker := "";
                                          model.tr_Version := model.TranslationVersion;
                                          model.tr_Replicas := replicas;
                                          model.tr_Rules := [rule] |})]> translations)
                  end
              end
          end
      end
  end.

(** The translation of the deployment [d] of the root manifest itself. *)
Definition translateMain (h : gmap model.loc model.Dev) (dev : model.loc)
    (root : model.Dev) (d : option Deployment) : option (gmap string Bound) :=
  match d with
  | None => Some ∅
  | Some d =>
      match model.ToTranslationRule h dev dev, Replicas (d_Spec d) with
      | Some rule, Some replicas =>
          Some {[ Name (d_ObjectMeta d) :=
                    (d, {| model.tr_Interactive := true;
                           model.tr_Name := model.Name root;
                           model.tr_Marker := model.DevPath root;
                           model.tr_Version := model.TranslationVersion;
                           model.tr_Replicas := replicas;
                           model.tr_Rules := [rule] |}) ]}
      | _, _ => None
      end
  end.

(** [GetTranslations]; [d] is [None] for a nil deployment. *)
Definition GetTranslations (h : gmap model.loc model.Dev) (dev : model.loc)
    (d : option Deployment) (c : Clientset) : option (result (gmap string Bound)) :=
  match h !! dev with
  | None => None
  | Some root =>
      match translateMain h dev root d with
      | None => None
      | Some translations => translateServices h dev root c (model.Services root) translations
      end
  end.

End workloads.

(** ** [pkg/k8s/pods]: [Exists] *)

Module podquery.
Import metav1 apiv1.

(** [Exists], from the answer of the cluster to the request for the pod. *)
Definition Exists (answer : result Pod) : bool :=
  match answer with
  | Err _ => false
  | Ok pod => bool_decide (DeletionTimestamp (p_ObjectMeta pod) = None)
  end.

End podquery.

(** * Further notions *)

Module Notions.
Import metav1 apiv1 appsv1 pods.

(** A listed pod does not hold [waitUntilRunning] back: it is running and
    ready, or in a phase the loop does not look at. *)
Definition settled (pod : Pod) : bool :=
  match Phase (p_Status pod) with
  | PodPending => false
  | PodFailed => false
  | PodRunning => isRunning pod
  | _ => true
  end.

Definition failed (pod : Pod) : bool :=
  bool_decide (Phase (p_Status pod) = PodFailed).

(** The pod has a condition [Ready] with status [True]. *)
Definition ready (pod : Pod) : Prop :=
  ∃ c, c ∈ Conditions (p_Status pod) ∧ pc_Type c = PodReady ∧ pc_Status c = ConditionTrue.

Definition deleteCall (namespace : string) (pod : Pod) : Call :=
  CallDeletePod namespace (Name (p_ObjectMeta pod)).

(** The fields of a service that [setDefaults] resets. *)
Definition reset (s : model.Dev) : Prop :=
  model.Namespace s = "" ∧ model.Volumes s = [] ∧ model.Forward_ s = []
  ∧ model.Services s = [] ∧ model.Resources s = manifest.emptyResources.

(** The fields of a manifest that [setDefaults] leaves as they are, in the
    root and in the services. *)
Definition sameDeclaration (a b : model.Dev) : Prop :=
  model.Name a = model.Name b ∧ model.Labels a = model.Labels b
  ∧ model.Container a = model.Container b ∧ model.Image a = model.Image b
  ∧ model.Environment a = model.Environment b ∧ model.SubPath a = model.SubPath b
  ∧ model.SecurityContext_ a = model.SecurityContext_ b
  ∧ model.DevPath a = model.DevPath b ∧ model.DevDir a = model.DevDir b.

(** What holds of every entry of the map of [GetTranslations] for the root
    manifest [root] and its deployment [main]. *)
Definition wellBound (root : model.Dev) (main : option Deployment)
    (key : string) (b : workloads.Bound) : Prop :=
  key = Name (d_ObjectMeta b.1)
  ∧ model.tr_Name b.2 = model.Name root
  ∧ model.tr_Version b.2 = model.TranslationVersion
  ∧ model.tr_Rules b.2 ≠ []
  ∧ Replicas (d_Spec b.1) = Some (model.tr_Replicas b.2)
  ∧ (model.tr_Interactive b.2 = true ↔ ∃ d, main = Some d ∧ key = Name (d_ObjectMeta d))
  ∧ model.tr_Marker b.2 = (if model.tr_Interactive b.2 then model.DevPath root else "").

(** The capabilities a manifest declares; none without a security context
    or without capabilities in it. *)
Definition declaredCapabilities (d : model.Dev) : model.Capabilities :=
  match model.SecurityContext_ d with
  | Some sc => default {| model.Add := []; model.Drop := [] |} (model.Capabilities_ sc)
  | None => {| model.Add := []; model.Drop := [] |}
  end.

Definition validPullPolicy (pullPolicy : string) : Prop :=
  pullPolicy = manifest.PullAlways ∨ pullPolicy = manifest.PullIfNotPresent
  ∨ pullPolicy = manifest.PullNever.

End Notions.

(** * Further cases *)

Module Cases.
Import metav1 apiv1 appsv1 pods Examples.

(** A pod that is running and reports ready. *)
Definition readyPod : Pod :=
  {| p_ObjectMeta := meta "worker-a";
     p_Status := {| Phase := PodRunning;
                    Conditions := [{| pc_Type := "Ready"; pc_Status := ConditionTrue |}];
                    InitContainerStatuses := [] |} |}.


(** A cluster whose second detached pod failed. *)
Definition broken : nat → Clientset :=
  fun _ => clusterOf [readyPod; pod "worker-b" PodFailed []] (Ok (deployment [])).

(** Deleting [worker-b] is refused. *)
Definition refusing : Clientset :=
  {| GetDeployment := fun _ _ => Ok (deployment []);
     ListDeployments := fun _ _ => Ok [];
     UpdateDeployment := fun _ _ => None;
     ListPods := fun _ _ => Ok [pod "worker-a" PodRunning []; pod "worker-b" PodRunning [];
                                pod "worker-c" PodRunning []];
     DeletePod := fun _ name =>
       if bool_decide (name = "worker-b") then Some (Errorf "pods worker-b is forbidden")
       else None |}.

(** The selector of [byLabel] matches the deployments [items]. *)
Definition selecting (items : list Deployment) : Clientset :=
  {| GetDeployment := fun _ _ => Err (Errorf "deployments.apps web not found");
     ListDeployments := fun _ _ => Ok items;
     UpdateDeployment := fun _ _ => None;
     ListPods := fun _ _ => Ok [];
     DeletePod := fun _ _ => None |}.

(** A service that is found by its labels. *)
Definition byLabel : model.Dev :=
  {| model.Name := ""; model.Labels := {[ "app" := "worker" ]}; model.Namespace := "";
     model.Container := "dev"; model.Image := "worker:latest";
     model.ImagePullPolicy := ""; model.Environment := [];
     model.Command := []; model.WorkDir := "/src";
     model.MountPath := ""; model.SubPath := ""; model.Volumes := ["/cache"];
     model.SecurityContext_ := None; model.Forward_ := [];
     model.Resources := noResources; model.DevPath := "";
     model.DevDir := ""; model.Services := [] |}.

(** A service that declares a name and labels. *)
Definition twiceNamed : model.Dev :=
  {| model.Name := "worker"; model.Labels := {[ "app" := "worker" ]};
     model.Namespace := "";
     model.Container := "dev"; model.Image := "worker:latest";
     model.ImagePullPolicy := ""; model.Environment := [];
     model.Command := []; model.WorkDir := "";
     model.MountPath := ""; model.SubPath := ""; model.Volumes := [];
     model.SecurityContext_ := None; model.Forward_ := [];
     model.Resources := noResources; model.DevPath := "";
     model.DevDir := ""; model.Services := [] |}.

(** The manifest as parsed, before the defaults: no command, no paths, no
    pull policy. *)
Definition bare : model.Dev :=
  {| model.Name := "web"; model.Labels := ∅; model.Namespace := "dev";
     model.Container := ""; model.Image := "web:latest";
     model.ImagePullPolicy := ""; model.Environment := [];
     model.Command := []; model.WorkDir := "";
     model.MountPath := ""; model.SubPath := ""; model.Volumes := ["/go/pkg"];
     model.SecurityContext_ := None; model.Forward_ := [];
     model.Resources := noResources; model.DevPath := "okteto.yml";
     model.DevDir := "/home/dev/web"; model.Services := [1%nat] |}.

Definition parsed : gmap model.loc model.Dev := {[ 0%nat := bare; 1%nat := byLabel ]}.

Definition misparsed : gmap model.loc model.Dev := {[ 0%nat := bare; 1%nat := twiceNamed ]}.

(** A root manifest without namespace, with one service. *)
Definition unplaced : model.Dev :=
  {| model.Name := "web"; model.Labels := ∅; model.Namespace := "";
     model.Container := "dev"; model.Image := "web:latest";
     model.ImagePullPolicy := "Always"; model.Environment := [];
     model.Command := ["sh"]; model.WorkDir := "/okteto";
     model.MountPath := "/okteto"; model.SubPath := ""; model.Volumes := [];
     model.SecurityContext_ := None; model.Forward_ := [];
     model.Resources := noResources; model.DevPath := "okteto.yml";
     model.DevDir := "/home/dev/web"; model.Services := [1%nat] |}.

Definition unplacedManifests : gmap model.loc model.Dev :=
  {[ 0%nat := unplaced; 1%nat := worker ]}.

(** The same cluster as [ready], with a deployment out of quota. *)
Definition readyStarved : World := steady (clusterOf [running] (Ok starved)) TickerC.

(** A function that keeps the first occurrence of each string. *)
Definition dedup (l : list string) : list string := remove_dups l.

End Cases.

(** * Properties *)

Section GetByLabel_facts.
Import metav1 apiv1 appsv1 pods Spec.

Variables (w : World) (dev : model.Dev) (label : string) (waitUntilDeployed : bool).

Let attempt_ := attempt w dev label waitUntilDeployed.
Let poll_ := poll w dev label waitUntilDeployed.

Lemma poll_skip (n fuel tries : nat) :
  (∀ j, (tries ≤ j < tries + n)%nat → attempt_ j = Continue) →
  poll_ (n + fuel) tries = poll_ fuel (tries + n).
Proof.
  revert tries. induction n as [|n IH]; intros tries Hc.
  - by rewrite Nat.add_0_r.
  - simpl. subst poll_ attempt_. simpl.
    rewrite (Hc tries) by lia.
    replace (tries + S n)%nat with (S tries + n)%nat by lia.
    apply IH. intros j Hj. apply Hc. lia.
Qed.

Lemma GetByLabel_returns_at (k : nat) (r : result Pod) :
  (k < maxRetries)%nat →
  reaches w dev label waitUntilDeployed k →
  attempt_ k = Return r →
  GetByLabel w dev label waitUntilDeployed = r.
Proof.
  intros Hk Hreach Hret. unfold GetByLabel.
  replace maxRetries with (k + S (maxRetries - S k))%nat by lia.
  fold poll_. rewrite poll_skip.
  - subst poll_ attempt_. simpl. simpl in Hret. by rewrite Hret.
  - intros j Hj. apply Hreach. lia.
Qed.


Lemma poll_inv (fuel tries : nat) (r : result Pod) :
  poll_ fuel tries = r →
  (∃ k, (tries ≤ k < tries + fuel)%nat
        ∧ (∀ j, (tries ≤ j < k)%nat → attempt_ j = Continue)
        ∧ attempt_ k = Return r)
  ∨ ((∀ j, (tries ≤ j < tries + fuel)%nat → attempt_ j = Continue)
     ∧ r = Err errTimeout).
Proof.
  revert tries. induction fuel as [|fuel IH]; intros tries Hp.
  - right. split; [intros j Hj; lia | done].
  - subst poll_ attempt_. simpl in *.
    destruct (attempt w dev label waitUntilDeployed tries) as [r0|] eqn:Ha.
    + left. exists tries. split; [lia|]. split; [intros j Hj; lia|]. by subst.
    + destruct (IH _ Hp) as [(k & Hk & Hc & Hr)|[Hc Hr]].
      * left. exists k. split; [lia|]. split; [|done].
        intros j Hj. destruct (decide (j = tries)) as [->|]; [done|]. apply Hc. lia.
      * right. split; [|done].
        intros j Hj. destruct (decide (j = tries)) as [->|]; [done|]. apply Hc. lia.
Qed.

Lemma GetByLabel_inv (r : result Pod) :
  GetByLabel w dev label waitUntilDeployed = r →
  (∃ k, (k < maxRetries)%nat ∧ reaches w dev label waitUntilDeployed k
        ∧ attempt_ k = Return r)
  ∨ (reaches w dev label waitUntilDeployed maxRetries ∧ r = Err errTimeout).
Proof.
  intros H. apply poll_inv in H as [(k & Hk & Hc & Hr)|[Hc Hr]].
  - left. exists k. split; [lia|]. split; [|done]. intros j Hj. apply Hc. lia.
  - right. split; [|done]. intros j Hj. apply Hc. lia.
Qed.

End GetByLabel_facts.

Section scanPods_facts.
Import metav1 apiv1 appsv1 pods Spec.

Lemma scanPods_ok (items acc : list Pod) :
  Forall (λ p, fatal p = None) items →
  scanPods items acc = Ok (acc ++ List.filter qualifies items)%list.
Proof.
  intros Hall. revert acc.
  induction Hall as [|pod items Hpod _ IH]; intros acc; simpl.
  - by rewrite app_nil_r.
  - unfold fatal in Hpod. unfold qualifies.
    destruct (bool_decide (Phase (p_Status pod) = PodRunning)); simpl.
    + destruct (DeletionTimestamp (p_ObjectMeta pod)); simpl.
      * apply IH.
      * rewrite IH. by rewrite <- app_assoc.
    + rewrite Hpod. apply IH.
Qed.

Lemma scanPods_ok_inv (items acc l : list Pod) :
  scanPods items acc = Ok l →
  Forall (λ p, fatal p = None) items ∧ l = (acc ++ List.filter qualifies items)%list.
Proof.
  revert acc. induction items as [|pod items IH]; intros acc; simpl.
  - intros [= <-]. by rewrite app_nil_r.
  - unfold fatal at 1. unfold qualifies at 1.
    destruct (bool_decide (Phase (p_Status pod) = PodRunning)) eqn:Hph; simpl.
    + destruct (DeletionTimestamp (p_ObjectMeta pod)); simpl; intros Hs;
        apply IH in Hs as [Hall ->]; split;
        try (constructor; [unfold fatal; by rewrite Hph | done]); try done.
      by rewrite <- app_assoc.
    + destruct (initError (InitContainerStatuses (p_Status pod))) eqn:Hi; [done|].
      intros Hs. apply IH in Hs as [Hall ->]. split; [|done].
      constructor; [unfold fatal; by rewrite Hph | done].
Qed.


Variables (w : World) (dev : model.Dev) (label : string) (waitUntilDeployed : bool).

(** An attempt returns a pod exactly when the list it obtains holds one
    qualifying pod and no pod with a fatal init container. *)
Lemma attempt_success_iff (k : nat) (pod : Pod) :
  attempt w dev label waitUntilDeployed k = Return (Ok pod) ↔
  ∃ items,
    ListPods (cluster (w k)) (model.Namespace dev) (label +:+ "=" +:+ model.Name dev)
      = Ok items
    ∧ List.filter qualifies items = [pod]
    ∧ Forall (λ p, fatal p = None) items.
Proof.
  unfold attempt. split.
  - destruct (ListPods _ _ _) as [items|] eqn:Hl; [|done].
    destruct items as [|p0 items].
    + cbn [scanPods].
      destruct (if (k mod 10 =? 0)%nat && _ then _ else _); [done|].
      destruct (selected (w k)); done.
    + replace ((k mod 10 =? 0)%nat && (length (p0 :: items) =? 0)%nat) with false
        by (simpl; by rewrite andb_false_r).
      destruct (scanPods (p0 :: items) []) as [l|] eqn:Hs; [|done].
      apply scanPods_ok_inv in Hs as [Hall Hl'].
      destruct l as [|p1 [|p2 l]]; try (destruct (selected (w k)); done).
      intros [= <-]. eauto.
  - intros (items & -> & Hf & Hall).
    destruct items as [|p0 items]; [done|].
    replace ((k mod 10 =? 0)%nat && (length (p0 :: items) =? 0)%nat) with false
      by (simpl; by rewrite andb_false_r).
    rewrite (scanPods_ok _ _ Hall), app_nil_l. by rewrite Hf.
Qed.



End scanPods_facts.

Section GetByLabel_claims.
Import metav1 apiv1 appsv1 pods Spec.

Lemma quotaFailure_found (conds : list DeploymentCondition) :
  Exists quotaExceeded conds → quotaFailure conds = Some ErrQuota.
Proof.
  induction 1 as [c conds (Ht & Hr & Hs & Hm)|c conds _ IH]; simpl.
  - rewrite !bool_decide_eq_true_2 by done. by rewrite Hm.
  - by destruct (_ && _).
Qed.



Variables (w : World) (dev : model.Dev) (label : string) (waitUntilDeployed : bool).

Let namespace := model.Namespace dev.
Let selector := label +:+ "=" +:+ model.Name dev.

(** C1, as amended. On an attempt whose index is a multiple of 10 and
    that lists no pod, the deployment decides the attempt. A replica
    failure for exceeded quota ends the wait at once with the quota
    error, whether or not the caller asked to wait until deployed. The
    flag only counts when the deployment is not found: without it the
    wait ends with the not-found error, with it the attempt goes on to
    its [select]. *)
Theorem GetByLabel_deployment_check (k : nat) :
  (k < maxRetries)%nat →
  reaches w dev label waitUntilDeployed k →
  (k mod 10 = 0)%nat →
  ListPods (cluster (w k)) namespace selector = Ok [] →
  (∀ d, deployments.Get dev namespace (cluster (w k)) = Ok d →
        Exists quotaExceeded (st_Conditions (d_Status d)) →
        GetByLabel w dev label waitUntilDeployed = Err ErrQuota)
  ∧ (∀ err, deployments.Get dev namespace (cluster (w k)) = Err err →
            IsNotFound err = true →
            if waitUntilDeployed
            then attempt w dev label waitUntilDeployed k
                 = match selected (w k) with
                   | TickerC => Continue
                   | CtxDone r => Return (Err (context.Err r))
                   end
            else GetByLabel w dev label waitUntilDeployed = Err err).
Proof.
  intros Hk Hreach Hmod Hlist.
  assert (∀ failed,
    isDeploymentFailed dev (cluster (w k)) = failed →
    attempt w dev label waitUntilDeployed k =
    match (match failed with
           | Some err =>
               if negb (IsNotFound err) then Some err
               else if negb waitUntilDeployed then Some err else None
           | None => None
           end) with
    | Some err => Return (Err err)
    | None => match selected (w k) with
              | TickerC => Continue
              | CtxDone r => Return (Err (context.Err r))
              end
    end) as Hattempt.
  { intros failed <-. unfold attempt. subst namespace selector.
    rewrite Hlist, Hmod. done. }
  split.
  - intros d Hget Hq.
    apply (GetByLabel_returns_at _ _ _ _ k); [done..|].
    rewrite (Hattempt (Some ErrQuota)); [done|].
    unfold isDeploymentFailed. fold namespace. rewrite Hget.
    by apply quotaFailure_found.
  - intros err Hget Hnf.
    assert (isDeploymentFailed dev (cluster (w k)) = Some err) as Hfail.
    { unfold isDeploymentFailed. fold namespace. by rewrite Hget, Hnf. }
    specialize (Hattempt _ Hfail). cbv beta iota in Hattempt.
    rewrite Hnf in Hattempt. simpl in Hattempt.
    destruct waitUntilDeployed; simpl in Hattempt; [done|].
    by apply (GetByLabel_returns_at _ _ _ _ k).
Qed.

(** C8, as amended. [GetByLabel] returns a pod exactly when some attempt
    it makes lists exactly one pod that is running and not being deleted,
    and no listed pod that is not running reports a crashed init
    container or an image it cannot pull. An attempt whose list holds no
    such pod, or more than one, never returns a pod: it ends the wait with
    an error or goes on. *)
Theorem GetByLabel_returns_pod_iff :
  (∀ pod,
     GetByLabel w dev label waitUntilDeployed = Ok pod ↔
     ∃ k items,
       (k < maxRetries)%nat
       ∧ reaches w dev label waitUntilDeployed k
       ∧ ListPods (cluster (w k)) namespace selector = Ok items
       ∧ List.filter qualifies items = [pod]
       ∧ Forall (λ p, fatal p = None) items)
  ∧ (∀ k items pod,
       ListPods (cluster (w k)) namespace selector = Ok items →
       length (List.filter qualifies items) ≠ 1%nat →
       attempt w dev label waitUntilDeployed k ≠ Return (Ok pod)).
Proof.
  split.
  - intros pod. split.
    + intros H. apply GetByLabel_inv in H as [(k & Hk & Hreach & Ha)|[_ ?]]; [|done].
      apply attempt_success_iff in Ha as (items & Hl & Hf & Hall).
      exists k, items. done.
    + intros (k & items & Hk & Hreach & Hl & Hf & Hall).
      apply (GetByLabel_returns_at _ _ _ _ k); [done..|].
      apply attempt_success_iff. eauto.
  - intros k items pod Hl Hlen Ha.
    apply attempt_success_iff in Ha as (items' & Hl' & Hf & _).
    subst namespace selector. rewrite Hl in Hl'. injection Hl' as <-.
    by rewrite Hf in Hlen.
Qed.


End GetByLabel_claims.

Section GetByLabel_examples.
Import metav1 apiv1 appsv1 pods Spec Examples.

Let label := OktetoInteractiveDevLabel.

Lemma GetByLabel_deployment_check_witness :
  (0 < maxRetries)%nat
  ∧ reaches noQuota web label false 0
  ∧ (0 mod 10 = 0)%nat
  ∧ ListPods (cluster (noQuota 0%nat)) "dev" (label +:+ "=web") = Ok []
  ∧ GetByLabel noQuota web label false = Err ErrQuota.
Proof.
  assert (0 < maxRetries)%nat as H1 by (unfold maxRetries; lia).
  assert (reaches noQuota web label false 0) as H2 by (intros j Hj; lia).
  assert (0 mod 10 = 0)%nat as H3 by reflexivity.
  assert (ListPods (cluster (noQuota 0%nat)) "dev" (label +:+ "=web") = Ok []) as H4
    by reflexivity.
  split; [exact H1|]. split; [exact H2|]. split; [exact H3|]. split; [exact H4|].
  apply (proj1 (GetByLabel_deployment_check noQuota web label false 0 H1 H2 H3 H4) starved).
  - reflexivity.
  - apply Exists_cons_hd. repeat split; reflexivity.
Defined.

(** C1 as stated fails. The caller asked to wait until deployed, the
    first attempt lists no pod and finds the replica failure for exceeded
    quota: the attempt does not go on to the next one, the wait ends with
    the quota error. *)
Lemma GetByLabel_quota_counterexample :
  ListPods (cluster (noQuota 0%nat)) "dev" (label +:+ "=web") = Ok []
  ∧ Exists quotaExceeded (st_Conditions (d_Status starved))
  ∧ attempt noQuota web label true 0 = Return (Err ErrQuota)
  ∧ attempt noQuota web label true 0 ≠ Continue
  ∧ GetByLabel noQuota web label true = Err ErrQuota.
Proof.
  split; [reflexivity|]. split.
  { apply Exists_cons_hd. repeat split; reflexivity. }
  split; [reflexivity|]. split; [discriminate|]. reflexivity.
Qed.

Lemma GetByLabel_returns_pod_iff_witness :
  GetByLabel ready web label false = Ok running.
Proof.
  apply (proj1 (GetByLabel_returns_pod_iff ready web label false)).
  exists 0%nat, [running]. split; [unfold maxRetries; lia|].
  split; [intros j Hj; lia|]. split; [reflexivity|]. split; [reflexivity|].
  constructor; [reflexivity | constructor].
Defined.

(** C8 as stated fails. The first attempt lists two pods, exactly one of
    them running and not being deleted; the other one is pending with a
    crashed init container, and the wait ends with the error of that pod
    instead of the running pod. In a second world no pod qualifies and
    the attempt returns the error of the context instead of going on. *)
Lemma GetByLabel_one_running_counterexample :
  ListPods (cluster (halfBroken 0%nat)) "dev" (label +:+ "=web") = Ok [running; crashed]
  ∧ List.filter qualifies [running; crashed] = [running]
  ∧ GetByLabel halfBroken web label false ≠ Ok running
  ∧ GetByLabel halfBroken web label false
    = Err (Errorf "Error initializing okteto volume. This is probably because your development image is not root. Please, add securityContext.runAsUser and securityContext.fsGroup to your deployment manifest")
  ∧ List.filter qualifies [] = ([] : list Pod)
  ∧ ListPods (cluster (cancelled 0%nat)) "dev" (label +:+ "=web") = Ok []
  ∧ attempt cancelled web label false 0 = Return (Err (context.Err context.Canceled)).
Proof.
  split; [reflexivity|]. split; [reflexivity|]. split; [discriminate|].
  split; [reflexivity|]. split; [reflexivity|]. split; reflexivity.
Qed.


End GetByLabel_examples.

Section Restart_claims.
Import metav1 apiv1 appsv1 pods Spec.

Variables (w : nat → Clientset) (namespace selector : string).

Let call := CallListPods namespace selector.

Lemma replicate_snoc (n : nat) (c : Call) :
  (replicate n c ++ [c])%list = c :: replicate n c.
Proof. induction n as [|n IH]; simpl; [done | by f_equal]. Qed.

(** An iteration that lists no pod ends the wait with success. *)
Lemma waitLoop_empty (fuel i : nat) (notready : gset string) :
  ListPods (w i) namespace selector = Ok [] →
  waitLoop w namespace selector (S fuel) i notready = ([call], None).
Proof. intros Hl. simpl. by rewrite Hl. Qed.

Lemma waitLoop_skip (n fuel i : nat) (notready notready' : gset string) :
  waitFrom w namespace selector i notready n = Some notready' →
  waitLoop w namespace selector (n + fuel) i notready
  = let r := waitLoop w namespace selector fuel (i + n) notready' in
    ((replicate n call ++ r.1)%list, r.2).
Proof.
  revert i notready. induction n as [|n IH]; intros i notready; simpl.
  - intros [= ->]. rewrite Nat.add_0_r. by destruct (waitLoop _ _ _ _ _ _).
  - destruct (ListPods (w i) namespace selector) as [items|]; [|done].
    destruct (classify items true notready) as [[[] nr]|]; try done.
    intros Hw. rewrite (IH _ _ Hw).
    replace (i + S n)%nat with (S i + n)%nat by lia.
    by destruct (waitLoop _ _ _ _ _ _).
Qed.

(** C10. When an iteration of the wait lists no pod, none of the listed
    pods is pending or unready, so all of them count as running and the
    wait returns success at that iteration, after one list call per
    iteration made. [Restart] then reports success as well: when every
    deletion succeeds and the first list of the wait is empty, it
    succeeds, and the only list of the wait showed no pod at all. *)
Theorem waitUntilRunning_empty_list_succeeds :
  (∀ notready, classify [] true notready = Ok (true, notready))
  ∧ (∀ i notready,
       (i < 60)%nat →
       waitFrom w namespace selector 0 ∅ i = Some notready →
       ListPods (w i) namespace selector = Ok [] →
       waitUntilRunning w namespace selector = (replicate (S i) call, None))
  ∧ (∀ c dev items calls,
       namespace = model.Namespace dev →
       selector = OktetoDetachedDevLabel +:+ "=" +:+ model.Name dev →
       ListPods c namespace selector = Ok items →
       deleteEach c namespace items = (calls, None) →
       ListPods (w 0%nat) namespace selector = Ok [] →
       Restart c w dev = ((call :: calls ++ [call])%list, None)).
Proof.
  split; [done|]. split.
  - intros i notready Hi Hfrom Hl. unfold waitUntilRunning.
    replace 60%nat with (i + S (59 - i))%nat by lia.
    rewrite (waitLoop_skip _ _ _ _ _ Hfrom). simpl.
    rewrite Hl. simpl.
    f_equal. apply replicate_snoc.
  - intros c dev items calls Hns Hsel Hl Hdel Hl0. unfold Restart.
    rewrite <- Hns, <- Hsel, Hl, Hdel. unfold waitUntilRunning.
    by rewrite (waitLoop_empty 59 0 ∅ Hl0).
Qed.

End Restart_claims.

Section Restart_examples.
Import metav1 apiv1 appsv1 pods Spec Examples.

Let selector := OktetoDetachedDevLabel +:+ "=web".

Lemma waitUntilRunning_empty_list_succeeds_witness :
  (2 < 60)%nat
  ∧ waitFrom draining "dev" selector 0 ∅ 2 = Some {["worker-b"]}
  ∧ ListPods (draining 2%nat) "dev" selector = Ok []
  ∧ waitUntilRunning draining "dev" selector
    = (replicate 3 (CallListPods "dev" selector), None)
  ∧ Restart (clusterOf [running] (Ok (deployment []))) drained web
    = ([CallListPods "dev" selector; CallDeletePod "dev" "web-7d9f";
        CallListPods "dev" selector], None).
Proof.
  assert (2 < 60)%nat as H1 by lia.
  assert (waitFrom draining "dev" selector 0 ∅ 2 = Some {["worker-b"]}) as H2
    by (vm_compute; reflexivity).
  assert (ListPods (draining 2%nat) "dev" selector = Ok []) as H3 by reflexivity.
  split; [exact H1|]. split; [exact H2|]. split; [exact H3|]. split.
  - apply (proj1 (proj2 (waitUntilRunning_empty_list_succeeds draining "dev" selector))
             2%nat {["worker-b"]} H1 H2 H3).
  - apply (proj2 (proj2 (waitUntilRunning_empty_list_succeeds drained "dev" selector))
             (clusterOf [running] (Ok (deployment []))) web [running]
             [CallDeletePod "dev" "web-7d9f"]); reflexivity.
Defined.

(** C3 fails on the code. Two pods are listed and the deletion of the
    first one answers that the pod is not found: [Restart] returns
    success at once, the second pod is never deleted and the wait is
    never entered, whatever the cluster would have answered. *)
Theorem Restart_not_found_returns_early :
  ∀ w : nat → Clientset,
    ListPods gone "dev" selector
      = Ok [pod "worker-a" PodRunning []; pod "worker-b" PodRunning []]
    ∧ Restart gone w web
      = ([CallListPods "dev" selector; CallDeletePod "dev" "worker-a"], None).
Proof. intros w. split; reflexivity. Qed.

End Restart_examples.

Section DevModeOff_claims.
Import metav1 apiv1 appsv1 deployments.

Variables (OktetoTranslationAnnotation oktetoDeploymentAnnotation
           oktetoDeveloperAnnotation oktetoVersionAnnotation
           OktetoDevLabel : string).
Variable json_Unmarshal_Translation : string → result model.Translation.
Variable json_Unmarshal_Deployment : string → result Deployment.

Let DevModeOff_ :=
  DevModeOff OktetoTranslationAnnotation oktetoDeploymentAnnotation
    oktetoDeveloperAnnotation oktetoVersionAnnotation OktetoDevLabel
    json_Unmarshal_Translation json_Unmarshal_Deployment.

Lemma length_eqb_0 (s : string) : (String.length s =? 0)%nat = bool_decide (s = "").
Proof. by destruct s. Qed.

(** C2. [DevModeOff] takes one of three paths. An annotation counts as
    present when it reads as a non-empty string. With the translation on
    the pod template: a translation that does not parse ends the call
    with the malformed error and no write; one that parses gives the
    replica count, the developer and version annotations, the translation
    annotation and the dev label are deleted, the rest of the object is
    kept, and the object is written (resource version and status
    cleared). Otherwise, with the original manifest on the object: the
    deserialized original is written as a whole, the object of the caller
    is not touched. With neither: no write and no error. *)
Theorem DevModeOff_paths (d : Deployment) (c : Clientset) :
  let trRulesJSON :=
    getAnnotation (t_ObjectMeta (Template (d_Spec d))) OktetoTranslationAnnotation in
  let dManifest := getAnnotation (d_ObjectMeta d) oktetoDeploymentAnnotation in
  (trRulesJSON ≠ "" →
     (∀ err, json_Unmarshal_Translation trRulesJSON = Err err →
        DevModeOff_ d c
        = {| o_object := d; o_calls := [];
             o_err := Some (Errorf ("malformed tr rules: " +:+ Error err)) |})
     ∧ (∀ trRules, json_Unmarshal_Translation trRulesJSON = Ok trRules →
        ∃ d',
          DevModeOff_ d c
          = {| o_object := d';
               o_calls := [CallUpdateDeployment (Namespace (d_ObjectMeta d)) d'];
               o_err := UpdateDeployment c (Namespace (d_ObjectMeta d)) d' |}
          ∧ Replicas (d_Spec d') = Some (model.tr_Replicas trRules)
          ∧ Annotations (d_ObjectMeta d')
            = delete oktetoVersionAnnotation
                (delete oktetoDeveloperAnnotation (Annotations (d_ObjectMeta d)))
          ∧ Annotations (d_ObjectMeta d') !! oktetoDeveloperAnnotation = None
          ∧ Annotations (d_ObjectMeta d') !! oktetoVersionAnnotation = None
          ∧ Annotations (t_ObjectMeta (Template (d_Spec d')))
            = delete OktetoTranslationAnnotation
                (Annotations (t_ObjectMeta (Template (d_Spec d))))
          ∧ Annotations (t_ObjectMeta (Template (d_Spec d'))) !! OktetoTranslationAnnotation
            = None
          ∧ Labels (d_ObjectMeta d') = delete OktetoDevLabel (Labels (d_ObjectMeta d))
          ∧ Labels (d_ObjectMeta d') !! OktetoDevLabel = None
          ∧ t_Spec (Template (d_Spec d')) = t_Spec (Template (d_Spec d))
          ∧ Labels (t_ObjectMeta (Template (d_Spec d')))
            = Labels (t_ObjectMeta (Template (d_Spec d)))
          ∧ Name (d_ObjectMeta d') = Name (d_ObjectMeta d)
          ∧ Namespace (d_ObjectMeta d') = Namespace (d_ObjectMeta d)
          ∧ ResourceVersion (d_ObjectMeta d') = ""
          ∧ d_Status d' = DeploymentStatus_zero))
  ∧ (trRulesJSON = "" → dManifest ≠ "" →
     (∀ err, json_Unmarshal_Deployment dManifest = Err err →
        DevModeOff_ d c
        = {| o_object := d; o_calls := [];
             o_err := Some (Errorf ("malformed manifest: " +:+ Error err)) |})
     ∧ (∀ dOrig, json_Unmarshal_Deployment dManifest = Ok dOrig →
        DevModeOff_ d c
        = {| o_object := d;
             o_calls := [CallUpdateDeployment (Namespace (d_ObjectMeta dOrig))
                           (cleared dOrig)];
             o_err := UpdateDeployment c (Namespace (d_ObjectMeta dOrig))
                        (cleared dOrig) |}
        ∧ d_Spec (cleared dOrig) = d_Spec dOrig
        ∧ Labels (d_ObjectMeta (cleared dOrig)) = Labels (d_ObjectMeta dOrig)
        ∧ Annotations (d_ObjectMeta (cleared dOrig)) = Annotations (d_ObjectMeta dOrig)
        ∧ Name (d_ObjectMeta (cleared dOrig)) = Name (d_ObjectMeta dOrig)))
  ∧ (trRulesJSON = "" → dManifest = "" →
     DevModeOff_ d c = {| o_object := d; o_calls := []; o_err := None |}).
Proof.
  intros trRulesJSON dManifest. subst DevModeOff_. unfold DevModeOff.
  fold trRulesJSON dManifest. rewrite !length_eqb_0.
  split; [|split].
  - intros Hne. rewrite bool_decide_eq_false_2 by done. split.
    + intros err ->. done.
    + intros trRules ->.
      eexists. split; [reflexivity|]. simpl.
      repeat split; rewrite ?lookup_delete; repeat case_decide; done.
  - intros -> Hne. rewrite bool_decide_eq_true_2 by done.
    rewrite bool_decide_eq_false_2 by done. split.
    + intros err ->. done.
    + intros dOrig ->. done.
  - intros -> ->. by rewrite !bool_decide_eq_true_2 by done.
Qed.

End DevModeOff_claims.

Section Translate_claims.
Import metav1 apiv1 appsv1 deployments Spec.

Lemma merge_quantity_lookup (k j : string) (rule cont : gmap string Quantity) :
  merge_quantity k rule cont !! j
  = if decide (k = j) then overwritten (rule !! k) (cont !! k) else cont !! j.
Proof.
  unfold merge_quantity, overwritten. case_decide as Hkj.
  - subst j. destruct (rule !! k); [by rewrite lookup_insert_eq | done].
  - destruct (rule !! k); [by rewrite lookup_insert_ne | done].
Qed.

Lemma merge_list_lookup (k : string) (rule cont : gmap string Quantity) :
  k = ResourceCPU ∨ k = ResourceMemory →
  merge_list rule cont !! k = overwritten (rule !! k) (cont !! k).
Proof.
  intros [-> | ->]; unfold merge_list; rewrite !merge_quantity_lookup;
    repeat case_decide; done.
Qed.

(** C5. For CPU and for memory, in the requests and in the limits, the
    merged container has the quantity of the rule when the rule specifies
    one, and otherwise what the container had, a value or none. Each of
    the four results depends on the rule and the container at the same
    resource and bound only, and is one of the two quantities, never a
    sum. The case of the test gives requests of 4Gi and 0.125 and limits
    of 1Gi and 2. *)
Theorem TranslateResources_overwrites_or_keeps :
  (∀ (c : Container) (r : model.ResourceRequirements) (k : string),
     k = ResourceCPU ∨ k = ResourceMemory →
     Requests (c_Resources (TranslateResources c r)) !! k
     = overwritten (model.Requests r !! k) (Requests (c_Resources c) !! k)
     ∧ Limits (c_Resources (TranslateResources c r)) !! k
       = overwritten (model.Limits r !! k) (Limits (c_Resources c) !! k))
  ∧ Requests (c_Resources (TranslateResources Examples.sized Examples.resized))
    = {[ ResourceMemory := Examples.quarterGi 16; ResourceCPU := 125%Z ]}
  ∧ Limits (c_Resources (TranslateResources Examples.sized Examples.resized))
    = {[ ResourceMemory := Examples.quarterGi 4; ResourceCPU := 2000%Z ]}.
Proof.
  split; [|split].
  - intros c r k Hk. simpl. split; by apply merge_list_lookup.
  - apply map_eq. intros k. simpl. unfold merge_list.
    rewrite !merge_quantity_lookup. unfold Examples.resized, Examples.sized. simpl.
    repeat case_decide; simplify_map_eq; done.
  - apply map_eq. intros k. simpl. unfold merge_list.
    rewrite !merge_quantity_lookup. unfold Examples.resized, Examples.sized. simpl.
    repeat case_decide; simplify_map_eq; done.
Qed.




End Translate_claims.

Section Translate_examples.
Import metav1 apiv1 appsv1 deployments Spec Examples.

Lemma TranslateResources_overwrites_or_keeps_witness :
  (ResourceCPU = ResourceCPU ∨ ResourceCPU = ResourceMemory)
  ∧ Requests (c_Resources (TranslateResources sized resized)) !! ResourceCPU = Some 125%Z
  ∧ Limits (c_Resources (TranslateResources sized resized)) !! ResourceCPU = Some 2000%Z.
Proof.
  assert (ResourceCPU = ResourceCPU ∨ ResourceCPU = ResourceMemory) as H by (left; reflexivity).
  split; [exact H|].
  destruct (proj1 TranslateResources_overwrites_or_keeps sized resized ResourceCPU H)
    as [Hr Hl].
  split; [etransitivity; [exact Hr | reflexivity] | etransitivity; [exact Hl | reflexivity]].
Defined.



End Translate_examples.

Section Paths.
Import Spec.

Lemma noSlash_split (s : string) : noSlash s = true → strings.SplitSlash s = [s].
Proof.
  induction s as [|c s IH]; simpl; [done|].
  intros [Hc Hs]%andb_true_iff. apply negb_true_iff in Hc. by rewrite Hc, (IH Hs).
Qed.

Lemma noSlash_split_app (a b : string) :
  noSlash a = true →
  strings.SplitSlash (a +:+ String "/" b) = a :: strings.SplitSlash b.
Proof.
  induction a as [|c a IH]; simpl; [done|].
  intros [Hc Ha]%andb_true_iff. apply negb_true_iff in Hc. by rewrite Hc, (IH Ha).
Qed.

Lemma noSlash_digits (u : Decimal.uint) : noSlash (NilEmpty.string_of_uint u) = true.
Proof. induction u; simpl; done. Qed.

Lemma plain_data (i : nat) : plain ("data-" +:+ fmt.itoa i).
Proof. repeat split; try done. simpl. apply noSlash_digits. Qed.

Lemma clean_step_plain (rooted : bool) (out : list string) (c : string) :
  plain c → filepath.clean_step rooted out c = c :: out.
Proof.
  intros (H1 & H2 & H3 & _). unfold filepath.clean_step.
  by rewrite !bool_decide_eq_false_2 by done.
Qed.

Lemma clean_fold_plain (rooted : bool) (segs out : list string) :
  Forall plain segs →
  fold_left (filepath.clean_step rooted) segs out = (rev segs ++ out)%list.
Proof.
  intros Hp. revert out. induction Hp as [|c segs Hc _ IH]; intros out; simpl; [done|].
  by rewrite clean_step_plain, IH, <- app_assoc.
Qed.

Lemma split_join_plain (segs : list string) :
  segs ≠ [] → Forall plain segs →
  strings.SplitSlash (strings.Join segs "/") = segs.
Proof.
  intros Hne Hp. induction Hp as [|c segs Hc Hp IH]; [done|].
  destruct segs as [|c' segs].
  - simpl. apply noSlash_split, Hc.
  - change (strings.Join (c :: c' :: segs) "/")
      with (c +:+ String "/" (strings.Join (c' :: segs) "/")).
    rewrite noSlash_split_app by apply Hc. by rewrite IH.
Qed.

Lemma Clean_relative (c0 : ascii) (r : string) :
  Ascii.eqb c0 "/" = false →
  filepath.Clean (String c0 r)
  = let body :=
      strings.Join
        (rev (fold_left (filepath.clean_step false) (strings.SplitSlash (String c0 r)) []))
        "/" in
    if bool_decide (body = "") then "." else body.
Proof. intros Hc. unfold filepath.Clean. by rewrite Hc. Qed.

(** [filepath.Join] on plain segments is the segments with a slash in
    between. *)
Lemma Join_plain (segs : list string) :
  segs ≠ [] → Forall plain segs →
  filepath.Join segs = strings.Join segs "/".
Proof.
  intros Hne Hp. destruct segs as [|c segs]; [done|].
  pose proof (Forall_inv Hp) as (Hc1 & _ & _ & Hc4).
  unfold filepath.Join. rewrite bool_decide_eq_false_2 by done.
  destruct c as [|c0 c]; [done|]. simpl in Hc4.
  apply andb_true_iff in Hc4 as [Hc0 _]. apply negb_true_iff in Hc0.
  assert (∃ r, strings.Join (String c0 c :: segs) "/" = String c0 r) as [r Hr]
    by (destruct segs; simpl; eauto).
  rewrite Hr, (Clean_relative _ _ Hc0), <- Hr. cbv zeta.
  rewrite (split_join_plain _ Hne Hp), (clean_fold_plain _ _ _ Hp), app_nil_r, rev_involutive.
  rewrite Hr. by rewrite bool_decide_eq_false_2.
Qed.



End Paths.

Section ToTranslationRule_claims.
Import model Spec.



Variables (h : gmap loc Dev) (dev main : loc) (d m : Dev).
Hypothesis Hdev : h !! dev = Some d.
Hypothesis Hmain : h !! main = Some m.


(** C7. For the root manifest, where the node is the root itself, the
    rule has health checks off, the command [tail] and the arguments
    [-f /dev/null], whatever command the manifest declares. For a
    secondary the rule has health checks on; its command is the command
    of the secondary, with empty arguments, when that command is not
    empty, and command and arguments are left unset when it is. *)
Theorem ToTranslationRule_command :
  ∃ rule,
    ToTranslationRule h dev main = Some rule
    ∧ (dev = main →
       r_Healthchecks rule = false
       ∧ r_Command rule = Some ["tail"]
       ∧ r_Args rule = Some ["-f"; "/dev/null"])
    ∧ (dev ≠ main →
       r_Healthchecks rule = true
       ∧ (Command d ≠ [] → r_Command rule = Some (Command d) ∧ r_Args rule = Some [])
       ∧ (Command d = [] → r_Command rule = None ∧ r_Args rule = None)).
Proof.
  unfold ToTranslationRule. rewrite Hdev, Hmain.
  eexists. split; [reflexivity|]. split.
  - intros ->. by rewrite bool_decide_eq_true_2.
  - intros Hne. rewrite bool_decide_eq_false_2 by done.
    destruct (Command d) as [|c0 cmd]; simpl; done.
Qed.

End ToTranslationRule_claims.

Section ToTranslationRule_examples.
Import model Spec Examples.


Lemma ToTranslationRule_command_witness :
  manifests !! 0%nat = Some web
  ∧ manifests !! 1%nat = Some worker
  ∧ (∃ rule,
       ToTranslationRule manifests 0 0 = Some rule
       ∧ r_Healthchecks rule = false
       ∧ r_Command rule = Some ["tail"]
       ∧ r_Args rule = Some ["-f"; "/dev/null"])
  ∧ (∃ rule,
       ToTranslationRule manifests 1 0 = Some rule
       ∧ r_Healthchecks rule = true
       ∧ r_Command rule = Some ["./run_worker.sh"]
       ∧ r_Args rule = Some []).
Proof.
  assert (manifests !! 0%nat = Some web) as H0 by reflexivity.
  assert (manifests !! 1%nat = Some worker) as H1 by reflexivity.
  split; [exact H0|]. split; [exact H1|]. split.
  - destruct (ToTranslationRule_command manifests 0 0 web web H0 H0)
      as (rule & Hrule & Hroot & _).
    exists rule. split; [exact Hrule|]. exact (Hroot eq_refl).
  - destruct (ToTranslationRule_command manifests 1 0 worker web H1 H0)
      as (rule & Hrule & _ & Hsec).
    assert (1 ≠ 0)%nat as Hne by lia.
    destruct (Hsec Hne) as (Hhc & Hcmd & _).
    exists rule. split; [exact Hrule|]. split; [exact Hhc|].
    apply Hcmd. discriminate.
Defined.

End ToTranslationRule_examples.

Section DevModeOff_examples.
Import metav1 apiv1 appsv1 deployments Examples.

Let off :=
  DevModeOff "dev.okteto.com/translation" "dev.okteto.com/deployment"
    "dev.okteto.com/developer" "dev.okteto.com/version" "dev.okteto.com"
    decodeTranslation decodeDeployment.

Let quiet : Clientset := clusterOf [] (Ok inDevMode).

Lemma DevModeOff_paths_witness :
  getAnnotation (t_ObjectMeta (Template (d_Spec inDevMode))) "dev.okteto.com/translation"
    ≠ ""
  ∧ decodeTranslation translationPayload = Ok storedTranslation
  ∧ (∃ d',
       off inDevMode quiet
       = {| o_object := d'; o_calls := [CallUpdateDeployment "dev" d']; o_err := None |}
       ∧ Replicas (d_Spec d') = Some 3%Z
       ∧ Annotations (d_ObjectMeta d') = {[ "team" := "store" ]}
       ∧ Annotations (t_ObjectMeta (Template (d_Spec d'))) = ∅
       ∧ Labels (d_ObjectMeta d') = {[ "app" := "web" ]})
  ∧ off (deployment []) quiet
    = {| o_object := deployment []; o_calls := []; o_err := None |}.
Proof.
  assert (getAnnotation (t_ObjectMeta (Template (d_Spec inDevMode)))
            "dev.okteto.com/translation" ≠ "") as Hne by discriminate.
  assert (decodeTranslation translationPayload = Ok storedTranslation) as Hdec
    by reflexivity.
  split; [exact Hne|]. split; [exact Hdec|]. split.
  - destruct (proj2 (proj1 (DevModeOff_paths
        "dev.okteto.com/translation" "dev.okteto.com/deployment"
        "dev.okteto.com/developer" "dev.okteto.com/version" "dev.okteto.com"
        decodeTranslation decodeDeployment inDevMode quiet) Hne) storedTranslation Hdec)
      as (d' & Hoff & Hrep & Hann & _ & _ & Htann & _ & Hlab & _).
    exists d'. split; [exact Hoff|]. split; [exact Hrep|].
    split; [rewrite Hann | split; [rewrite Htann | rewrite Hlab]];
      apply map_eq; intros k; simpl;
      rewrite ?lookup_delete; repeat case_decide; simplify_map_eq; done.
  - apply (proj2 (proj2 (DevModeOff_paths
        "dev.okteto.com/translation" "dev.okteto.com/deployment"
        "dev.okteto.com/developer" "dev.okteto.com/version" "dev.okteto.com"
        decodeTranslation decodeDeployment (deployment []) quiet))); reflexivity.
Defined.

End DevModeOff_examples.

Section Library_examples.

Example Join_two : filepath.Join ["web"; "data-0"] = "web/data-0".
Proof. reflexivity. Qed.

Example Join_rooted_element :
  filepath.Join ["web"; "data-" +:+ fmt.itoa 11; "/worker"] = "web/data-11/worker".
Proof. reflexivity. Qed.

Example Join_parent : filepath.Join ["web"; "data-0"; "../x"] = "web/x".
Proof. reflexivity. Qed.

Example Join_all_empty : filepath.Join [""; ""; ""] = "".
Proof. reflexivity. Qed.

Example Join_cleans : filepath.Join [""; "a/../../b//c/./"; ""] = "../b/c".
Proof. reflexivity. Qed.

Example Join_root_parent : filepath.Join ["/.."; "a"] = "/a".
Proof. reflexivity. Qed.

Example Contains_not_found : strings.Contains "pods worker-a not found" "not found" = true.
Proof. reflexivity. Qed.

Example Contains_case : strings.Contains "pods worker-a Not Found" "not found" = false.
Proof. reflexivity. Qed.

End Library_examples.

(** * Further properties of the polling *)

Section Polling_more.
Import metav1 apiv1 appsv1 pods Spec Notions.

Lemma quotaFailure_only_quota (conds : list DeploymentCondition) (e : error) :
  quotaFailure conds = Some e → e = ErrQuota ∧ Exists quotaExceeded conds.
Proof.
  induction conds as [|c conds IH]; simpl; [done|].
  destruct (bool_decide (dc_Type c = DeploymentReplicaFailure)) eqn:Ht; simpl;
    [|intros [? ?]%IH; split; [done | by apply Exists_cons_tl]].
  destruct (bool_decide (dc_Reason c = failedCreateReason)) eqn:Hr; simpl;
    [|intros [? ?]%IH; split; [done | by apply Exists_cons_tl]].
  destruct (bool_decide (dc_Status c = ConditionTrue)) eqn:Hs; simpl;
    [|intros [? ?]%IH; split; [done | by apply Exists_cons_tl]].
  destruct (strings.Contains (dc_Message c) "exceeded quota") eqn:Hm;
    [|intros [? ?]%IH; split; [done | by apply Exists_cons_tl]].
  intros [= <-]. split; [done|]. apply Exists_cons_hd.
  apply bool_decide_eq_true in Ht, Hr, Hs. done.
Qed.

Lemma isDeploymentFailed_cases (dev : model.Dev) (c : Clientset) (e : error) :
  isDeploymentFailed dev c = Some e → e = ErrQuota ∨ IsNotFound e = true.
Proof.
  unfold isDeploymentFailed. destruct (deployments.Get _ _ _) as [d|err].
  - intros [-> _]%quotaFailure_only_quota. by left.
  - destruct (IsNotFound err) eqn:Hnf; [|done]. intros [= <-]. by right.
Qed.

(** X4. [isDeploymentFailed] reports the quota error or an error that
    [IsNotFound] accepts, and nothing else: any other error of the lookup
    is dropped. For a deployment that is found, it reports the quota error
    exactly when one of the conditions is a replica failure for exceeded
    quota. *)
Theorem isDeploymentFailed_reports (dev : model.Dev) (c : Clientset) :
  (∀ e, isDeploymentFailed dev c = Some e → e = ErrQuota ∨ IsNotFound e = true)
  ∧ (∀ err, deployments.Get dev (model.Namespace dev) c = Err err →
            IsNotFound err = false → isDeploymentFailed dev c = None)
  ∧ (∀ d, deployments.Get dev (model.Namespace dev) c = Ok d →
          (isDeploymentFailed dev c = Some ErrQuota
           ↔ Exists quotaExceeded (st_Conditions (d_Status d)))
          ∧ (isDeploymentFailed dev c = None
             ↔ ¬ Exists quotaExceeded (st_Conditions (d_Status d)))).
Proof.
  split; [intros e; apply isDeploymentFailed_cases|].
  unfold isDeploymentFailed. split.
  - intros err -> ->. done.
  - intros d ->. split; split.
    + by intros [_ ?]%quotaFailure_only_quota.
    + apply quotaFailure_found.
    + intros Hnone Hex. apply quotaFailure_found in Hex. congruence.
    + intros Hno. destruct (quotaFailure _) as [e|] eqn:Hq; [|done].
      apply quotaFailure_only_quota in Hq as [_ ?]. done.
Qed.

Variables (w : World) (dev : model.Dev) (label : string) (waitUntilDeployed : bool).

Let namespace := model.Namespace dev.
Let selector := label +:+ "=" +:+ model.Name dev.




(** X3. The deployment is looked at only by an attempt whose index is a
    multiple of 10 and that lists no pod: any other attempt has the same
    outcome whatever the cluster answers about deployments. *)
Theorem attempt_ignores_deployment (w' : World) (k : nat) :
  ((k mod 10)%nat ≠ 0%nat
   ∨ ∃ p items, ListPods (cluster (w k)) namespace selector = Ok (p :: items)) →
  ListPods (cluster (w' k)) namespace selector
  = ListPods (cluster (w k)) namespace selector →
  selected (w' k) = selected (w k) →
  attempt w' dev label waitUntilDeployed k = attempt w dev label waitUntilDeployed k.
Proof.
  intros Hoff Hl Hs. unfold attempt. fold namespace selector. rewrite Hl, Hs.
  destruct (ListPods (cluster (w k)) namespace selector) as [items|]; [|done].
  assert ((k mod 10 =? 0)%nat && (length items =? 0)%nat = false) as ->; [|done].
  destruct Hoff as [Hmod|(p & items' & [= ->])].
  - apply Nat.eqb_neq in Hmod. by rewrite Hmod.
  - simpl. apply andb_false_r.
Qed.

End Polling_more.

(** * Further properties of the restart *)

Section Waiting_more.
Import metav1 apiv1 appsv1 pods Spec Notions.

(** X5. [isRunning] asks for what [GetByLabel] asks of a pod, running and
    not being deleted, and for a condition [Ready] that is [True] on top. *)
Theorem isRunning_iff (pod : Pod) :
  isRunning pod = true ↔ qualifies pod = true ∧ ready pod.
Proof.
  unfold isRunning, qualifies, ready.
  destruct (decide (Phase (p_Status pod) = PodRunning)) as [Hp|Hp].
  - rewrite bool_decide_eq_false_2 by (by intros ?).
    rewrite (bool_decide_eq_true_2 _ Hp). simpl.
    destruct (DeletionTimestamp (p_ObjectMeta pod)) as [t|].
    + rewrite bool_decide_eq_false_2 by done. split; [done | by intros [? _]].
    + rewrite bool_decide_eq_true_2 by done. rewrite existsb_exists. split.
      * intros (c & Hin & [Ht Hs]%andb_true_iff). split; [done|].
        exists c. apply bool_decide_eq_true in Ht, Hs. by rewrite list_elem_of_In.
      * intros [_ (c & Hin & Ht & Hs)]. exists c. rewrite <- list_elem_of_In.
        split; [done|]. by rewrite !bool_decide_eq_true_2.
  - rewrite bool_decide_eq_true_2 by done. rewrite bool_decide_eq_false_2 by done.
    simpl. split; [done | by intros [? _]].
Qed.

Lemma isRunning_phase (pod : Pod) :
  isRunning pod = true → Phase (p_Status pod) = PodRunning.
Proof.
  unfold isRunning. case_bool_decide as Hp; [done|]. intros _.
  by destruct (decide (Phase (p_Status pod) = PodRunning)).
Qed.

Lemma classify_ok_inv (items : list Pod) (b b' : bool) (nr nr' : gset string) :
  classify items b nr = Ok (b', nr') → b' = b && forallb settled items.
Proof.
  revert b nr. induction items as [|pod items IH]; intros b nr; simpl.
  - intros [= <- _]. by rewrite andb_true_r.
  - unfold settled at 1.
    destruct (Phase (p_Status pod)); try done;
      try (intros ->%IH; by destruct b).
    destruct (isRunning pod); intros ->%IH; by destruct b.
Qed.

Lemma classify_no_failed (items : list Pod) (b : bool) (nr : gset string) :
  Forall (λ p, failed p = false) items →
  ∃ nr', classify items b nr = Ok (b && forallb settled items, nr').
Proof.
  intros Hall. revert b nr. induction Hall as [|pod items Hpod _ IH]; intros b nr; simpl.
  - exists nr. by rewrite andb_true_r.
  - unfold failed in Hpod. apply bool_decide_eq_false in Hpod. unfold settled at 1.
    destruct (Phase (p_Status pod)); [| | |done|].
    + destruct (IH false ({[Name (p_ObjectMeta pod)]} ∪ nr)) as [nr' ->]. exists nr'.
      by destruct b.
    + destruct (isRunning pod).
      * destruct (IH b (nr ∖ {[Name (p_ObjectMeta pod)]})) as [nr' ->]. by exists nr'.
      * destruct (IH false ({[Name (p_ObjectMeta pod)]} ∪ nr)) as [nr' ->]. exists nr'.
        by destruct b.
    + destruct (IH b nr) as [nr' ->]. by exists nr'.
    + destruct (IH b nr) as [nr' ->]. by exists nr'.
Qed.

Lemma classify_first_failed (l1 l2 : list Pod) (pod : Pod) (b : bool) (nr : gset string) :
  Forall (λ p, failed p = false) l1 →
  failed pod = true →
  classify (l1 ++ pod :: l2)%list b nr
  = Err (Errorf ("Pod " +:+ Name (p_ObjectMeta pod) +:+ " failed to start")).
Proof.
  intros Hall Hf. revert b nr. induction Hall as [|p l1 Hp _ IH]; intros b nr; simpl.
  - unfold failed in Hf. apply bool_decide_eq_true in Hf. by rewrite Hf.
  - unfold failed in Hp. apply bool_decide_eq_false in Hp.
    destruct (Phase (p_Status p)); try done; try apply IH.
    destruct (isRunning p); apply IH.
Qed.

Lemma settled_not_failed (pod : Pod) : settled pod = true → failed pod = false.
Proof.
  unfold settled, failed. destruct (Phase (p_Status pod)); try done;
    intros _; by apply bool_decide_eq_false.
Qed.

(** X6. One pass over the listed pods finds all of them running exactly
    when every pod is running and ready or in a phase the loop does not
    look at, [Succeeded] or [Unknown]: a pod in one of these two phases
    never holds the wait back. *)
Theorem classify_all_running (items : list Pod) (notready : gset string) :
  ((∃ notready', classify items true notready = Ok (true, notready'))
   ↔ Forall (λ p, settled p = true) items)
  ∧ (∀ pod, settled pod = true
            ↔ isRunning pod = true
              ∨ Phase (p_Status pod) = PodSucceeded
              ∨ Phase (p_Status pod) = PodUnknown).
Proof.
  split.
  - split.
    + intros [nr' H]. apply classify_ok_inv in H. simpl in H. symmetry in H.
      pose proof (proj1 (forallb_forall settled items) H) as Hall.
      apply Forall_forall. intros p Hp. apply Hall. by apply list_elem_of_In.
    + intros Hall.
      assert (Forall (λ p, failed p = false) items) as Hnf
        by (eapply Forall_impl; [exact Hall | apply settled_not_failed]).
      destruct (classify_no_failed items true notready Hnf) as [nr' Hc].
      exists nr'. rewrite Hc. simpl. f_equal. f_equal.
      apply (proj2 (forallb_forall settled items)). intros p Hp.
      rewrite Forall_forall in Hall. apply Hall. by apply list_elem_of_In.
  - intros pod. unfold settled.
    destruct (Phase (p_Status pod)) eqn:Hph.
    + split; [done|]. intros [Hr|[?|?]]; try done.
      apply isRunning_phase in Hr. congruence.
    + split; [by left|]. by intros [?|[?|?]].
    + split; [intros _; right; by left | done].
    + split; [done|]. intros [Hr|[?|?]]; try done.
      apply isRunning_phase in Hr. congruence.
    + split; [intros _; right; by right | done].
Qed.

Variables (w : nat → Clientset) (namespace selector : string).

Let call := CallListPods namespace selector.



Lemma waitLoop_calls (fuel i : nat) (notready : gset string) :
  ∃ n, (n ≤ fuel)%nat ∧ (fuel ≠ 0%nat → 1 ≤ n)%nat
       ∧ (waitLoop w namespace selector fuel i notready).1 = replicate n call.
Proof.
  revert i notready. induction fuel as [|fuel IH]; intros i notready; simpl.
  - exists 0%nat. done.
  - destruct (ListPods (w i) namespace selector) as [items|];
      [|exists 1%nat; split; [lia|done]].
    destruct (classify items true notready) as [[[] nr']|];
      try (exists 1%nat; split; [lia|done]).
    destruct (IH (S i) nr') as (n & Hn & _ & Hc).
    destruct (waitLoop w namespace selector fuel (S i) nr') as [calls err].
    exists (S n). split; [lia|]. split; [lia|]. simpl in *. by rewrite Hc.
Qed.

(** X8. [waitUntilRunning] lists the pods at least once and at most 60
    times, and issues no other call. *)
Theorem waitUntilRunning_calls :
  ∃ n, (1 ≤ n ≤ 60)%nat ∧ (waitUntilRunning w namespace selector).1 = replicate n call.
Proof.
  destruct (waitLoop_calls 60 0 ∅) as (n & Hn & H1 & Hc).
  exists n. split; [|done]. split; [by apply H1 | done].
Qed.

(** X9. The first failed pod of a list ends the wait at that iteration
    with the error that names it, whatever the pods after it are like. *)
Theorem waitUntilRunning_failed_pod (i : nat) (notready : gset string)
    (before after : list Pod) (pod : Pod) :
  (i < 60)%nat →
  waitFrom w namespace selector 0 ∅ i = Some notready →
  ListPods (w i) namespace selector = Ok (before ++ pod :: after)%list →
  Forall (λ p, failed p = false) before →
  failed pod = true →
  waitUntilRunning w namespace selector
  = (replicate (S i) call,
     Some (Errorf ("Pod " +:+ Name (p_ObjectMeta pod) +:+ " failed to start"))).
Proof.
  intros Hi Hfrom Hl Hbefore Hpod. unfold waitUntilRunning.
  replace 60%nat with (i + S (59 - i))%nat by lia.
  rewrite (waitLoop_skip _ _ _ _ _ _ _ _ Hfrom). simpl.
  rewrite Hl, (classify_first_failed _ _ _ _ _ Hbefore Hpod). simpl.
  f_equal. apply replicate_snoc.
Qed.

End Waiting_more.

Section Restart_more.
Import metav1 apiv1 appsv1 pods Spec Notions.

Variables (c : Clientset) (w : nat → Clientset) (dev : model.Dev).

Let namespace := model.Namespace dev.
Let selector := OktetoDetachedDevLabel +:+ "=" +:+ model.Name dev.

Lemma deleteEach_all (items : list Pod) :
  Forall (λ p, DeletePod c namespace (Name (p_ObjectMeta p)) = None) items →
  deleteEach c namespace items = (map (deleteCall namespace) items, None).
Proof.
  induction 1 as [|p items Hp _ IH]; simpl; [done|]. by rewrite Hp, IH.
Qed.

Lemma deleteEach_first_error (before after : list Pod) (pod : Pod) (err : error) :
  Forall (λ p, DeletePod c namespace (Name (p_ObjectMeta p)) = None) before →
  DeletePod c namespace (Name (p_ObjectMeta pod)) = Some err →
  deleteEach c namespace (before ++ pod :: after)%list
  = ((map (deleteCall namespace) before ++ [deleteCall namespace pod])%list,
     Some (if strings.Contains (Error err) "not found" then None
           else Some (Errorf ("error deleting kubernetes service: " +:+ Error err)))).
Proof.
  intros Hall Hpod. induction Hall as [|p before Hp _ IH]; simpl.
  - rewrite Hpod. by destruct (strings.Contains _ _).
  - by rewrite Hp, IH.
Qed.

(** X10. When every deletion succeeds, [Restart] lists the pods, deletes
    each listed pod once and in the order of the list, then waits, and
    returns what the wait returns. *)
Theorem Restart_deletes_in_order (items : list Pod) :
  ListPods c namespace selector = Ok items →
  Forall (λ p, DeletePod c namespace (Name (p_ObjectMeta p)) = None) items →
  Restart c w dev
  = ((CallListPods namespace selector :: map (deleteCall namespace) items
      ++ (waitUntilRunning w namespace selector).1)%list,
     (waitUntilRunning w namespace selector).2).
Proof.
  intros Hl Hall. unfold Restart. fold namespace selector.
  rewrite Hl, (deleteEach_all _ Hall).
  by destruct (waitUntilRunning w namespace selector).
Qed.

(** X11. [Restart] stops at the first deletion that fails: the pods after
    it are not deleted and the wait is not entered. The result is success
    when the text of the error contains [not found], and the error with a
    prefix otherwise. *)
Theorem Restart_stops_at_failed_deletion
    (before after : list Pod) (pod : Pod) (err : error) :
  ListPods c namespace selector = Ok (before ++ pod :: after)%list →
  Forall (λ p, DeletePod c namespace (Name (p_ObjectMeta p)) = None) before →
  DeletePod c namespace (Name (p_ObjectMeta pod)) = Some err →
  Restart c w dev
  = ((CallListPods namespace selector :: map (deleteCall namespace) before
      ++ [deleteCall namespace pod])%list,
     if strings.Contains (Error err) "not found" then None
     else Some (Errorf ("error deleting kubernetes service: " +:+ Error err))).
Proof.
  intros Hl Hall Hpod. unfold Restart. fold namespace selector.
  by rewrite Hl, (deleteEach_first_error _ _ _ _ Hall Hpod).
Qed.

End Restart_more.

(** * Further properties of the deployments *)

Section Get_more.
Import metav1 apiv1 appsv1 deployments.

(** X12. [Get] asks nothing of the cluster without a namespace. Without
    labels it returns what the cluster answers for the name of the
    manifest. With labels it returns a deployment exactly when the selector
    matches that deployment and no other: no match is [ErrNotFound], more
    than one is an error that tells their number, and an error of the list
    is passed on. *)
Theorem Get_selects_one (dev : model.Dev) (namespace : string) (c : Clientset) :
  (namespace = "" → Get dev namespace c = Err (Errorf "empty namespace"))
  ∧ (namespace ≠ "" → model.Labels dev = ∅ →
     Get dev namespace c = GetDeployment c namespace (model.Name dev))
  ∧ (namespace ≠ "" → model.Labels dev ≠ ∅ →
     (∀ d, Get dev namespace c = Ok d
           ↔ ListDeployments c namespace (model.LabelsSelector dev) = Ok [d])
     ∧ (ListDeployments c namespace (model.LabelsSelector dev) = Ok [] →
        Get dev namespace c = Err ErrNotFound)
     ∧ (∀ d1 d2 items,
          ListDeployments c namespace (model.LabelsSelector dev) = Ok (d1 :: d2 :: items) →
          Get dev namespace c
          = Err (Errorf ("Found '" +:+ fmt.itoa (2 + length items)
                         +:+ "' deployments instead of 1")))
     ∧ (∀ err, ListDeployments c namespace (model.LabelsSelector dev) = Err err →
               Get dev namespace c = Err err)).
Proof.
  unfold Get. split; [|split].
  - intros ->. done.
  - intros Hns ->. rewrite bool_decide_eq_false_2 by done.
    rewrite bool_decide_eq_true_2 by apply map_size_empty.
    by destruct (GetDeployment c namespace (model.Name dev)).
  - intros Hns Hl. rewrite bool_decide_eq_false_2 by done.
    rewrite bool_decide_eq_false_2 by (by intros ?%map_size_empty_iff).
    split; [|split; [|split]].
    + intros d. destruct (ListDeployments _ _ _) as [[|d1 [|d2 items]]|]; split; try done.
      * by intros [= ->].
      * by intros [= ->].
    + by intros ->.
    + by intros d1 d2 items ->.
    + by intros err ->.
Qed.

End Get_more.

Section DevModeOff_more.
Import metav1 apiv1 appsv1 deployments workloads.

Variables (OktetoTranslationAnnotation oktetoDeploymentAnnotation
           oktetoDeveloperAnnotation oktetoVersionAnnotation
           OktetoDevLabel : string).
Variable json_Unmarshal_Translation : string → result model.Translation.
Variable json_Unmarshal_Deployment : string → result Deployment.

Let DevModeOff_ :=
  DevModeOff OktetoTranslationAnnotation oktetoDeploymentAnnotation
    oktetoDeveloperAnnotation oktetoVersionAnnotation OktetoDevLabel
    json_Unmarshal_Translation json_Unmarshal_Deployment.

(** X13. [DevModeOff] writes at most once. What it writes carries no
    resource version and an empty status, so the write cannot be refused
    for a stale version, and the call returns what that write answers. *)
Theorem DevModeOff_overwrites (d : Deployment) (c : Clientset) :
  (length (o_calls (DevModeOff_ d c)) ≤ 1)%nat
  ∧ ∀ call, call ∈ o_calls (DevModeOff_ d c) →
      ∃ d', call = CallUpdateDeployment (Namespace (d_ObjectMeta d')) d'
            ∧ ResourceVersion (d_ObjectMeta d') = ""
            ∧ d_Status d' = DeploymentStatus_zero
            ∧ o_err (DevModeOff_ d c)
              = UpdateDeployment c (Namespace (d_ObjectMeta d')) d'.
Proof.
  subst DevModeOff_. unfold DevModeOff.
  destruct (String.length _ =? 0)%nat.
  - destruct (String.length _ =? 0)%nat; [split; [simpl; lia | by intros ? ?%elem_of_nil]|].
    destruct (json_Unmarshal_Deployment _) as [dOrig|err];
      [|split; [simpl; lia | by intros ? ?%elem_of_nil]].
    split; [simpl; lia|]. intros call ->%list_elem_of_singleton.
    exists (cleared dOrig). done.
  - destruct (json_Unmarshal_Translation _) as [trRules|err];
      [|split; [simpl; lia | by intros ? ?%elem_of_nil]].
    split; [simpl; lia|]. intros call ->%list_elem_of_singleton.
    eexists. split; [reflexivity|]. done.
Qed.

Variables (d : Deployment) (trRules : model.Translation).

Hypothesis Hpresent :
  getAnnotation (t_ObjectMeta (Template (d_Spec d))) OktetoTranslationAnnotation ≠ "".
Hypothesis Hparsed :
  json_Unmarshal_Translation
    (getAnnotation (t_ObjectMeta (Template (d_Spec d))) OktetoTranslationAnnotation)
  = Ok trRules.

Lemma DevModeOff_restored (c : Clientset) :
  DevModeOff_ d c
  = update (restore OktetoTranslationAnnotation oktetoDeveloperAnnotation
              oktetoVersionAnnotation OktetoDevLabel d trRules) c.
Proof.
  subst DevModeOff_. unfold DevModeOff.
  destruct (String.length _ =? 0)%nat eqn:Hlen.
  - apply Nat.eqb_eq in Hlen. by destruct (getAnnotation _ _).
  - by rewrite Hparsed.
Qed.

(** X14. Once [DevModeOff] has restored a deployment from its translation,
    [IsDevModeOn] is false of the object of the caller and of the object
    that was written. *)
Theorem DevModeOff_turns_dev_mode_off (c : Clientset) :
  IsDevModeOn OktetoDevLabel (o_object (DevModeOff_ d c)) = false
  ∧ ∀ ns d', CallUpdateDeployment ns d' ∈ o_calls (DevModeOff_ d c) →
             IsDevModeOn OktetoDevLabel d' = false.
Proof.
  rewrite DevModeOff_restored. unfold IsDevModeOn. split.
  - simpl. apply bool_decide_eq_false_2. rewrite lookup_delete_eq. by intros [? ?].
  - intros ns d' Hin. simpl in Hin. apply list_elem_of_singleton in Hin.
    injection Hin as _ ->. simpl.
    apply bool_decide_eq_false_2. rewrite lookup_delete_eq. by intros [? ?].
Qed.

(** X15. A second [DevModeOff] on the restored object does nothing, when
    the deployment carries no original manifest: no write and no error,
    whatever the cluster. *)
Theorem DevModeOff_twice (c c' : Clientset) :
  getAnnotation (d_ObjectMeta d) oktetoDeploymentAnnotation = "" →
  DevModeOff_ (o_object (DevModeOff_ d c)) c'
  = {| o_object := o_object (DevModeOff_ d c); o_calls := []; o_err := None |}.
Proof.
  intros Hnone. rewrite DevModeOff_restored. subst DevModeOff_.
  unfold DevModeOff at 1.
  assert (getAnnotation
            (t_ObjectMeta (Template (d_Spec (o_object
               (update (restore OktetoTranslationAnnotation oktetoDeveloperAnnotation
              oktetoVersionAnnotation OktetoDevLabel d trRules) c)))))
            OktetoTranslationAnnotation = "") as ->.
  { unfold getAnnotation. simpl. by rewrite lookup_delete_eq. }
  assert (getAnnotation
            (d_ObjectMeta (o_object
               (update (restore OktetoTranslationAnnotation oktetoDeveloperAnnotation
              oktetoVersionAnnotation OktetoDevLabel d trRules) c)))
            oktetoDeploymentAnnotation = "") as ->.
  { unfold getAnnotation in *. simpl. rewrite !lookup_delete.
    repeat case_decide; done. }
  done.
Qed.

End DevModeOff_more.

(** * Properties of the translations of a manifest *)

Section GetTranslations_more.
Import metav1 apiv1 appsv1 workloads Notions.

Variables (h : gmap model.loc model.Dev) (dev : model.loc) (root : model.Dev).
Variables (main : option Deployment) (c : Clientset).

(** What the loop over the services keeps true of the map. *)
Let invariant (translations : gmap string Bound) : Prop :=
  (∀ key b, translations !! key = Some b → wellBound root main key b)
  ∧ (∀ d, main = Some d →
          ∃ b, translations !! Name (d_ObjectMeta d) = Some b
               ∧ b.1 = d
               ∧ hd_error (model.tr_Rules b.2) = model.ToTranslationRule h dev dev).

Lemma hd_error_app_rule (rules : list model.TranslationRule) (rule : model.TranslationRule) :
  rules ≠ [] → hd_error (rules ++ [rule]) = hd_error rules.
Proof. by destruct rules. Qed.

Lemma translateServices_invariant (services : list model.loc)
    (translations translations' : gmap string Bound) :
  translateServices h dev root c services translations = Some (Ok translations') →
  invariant translations → invariant translations'.
Proof.
  revert translations. induction services as [|s services IH]; intros translations; simpl.
  - by intros [= ->].
  - destruct (h !! s) as [sd|]; [|by destruct (bool_decide _)].
    destruct (deployments.Get sd (model.Namespace root) c) as [d|err];
      [|destruct (IsNotFound err); [apply IH | done]].
    destruct (model.ToTranslationRule h s dev) as [rule|]; [|done].
    destruct (translations !! Name (d_ObjectMeta d)) as [[d0 t]|] eqn:Hk.
    + intros Hloop [Hwell Hmain]. apply (IH _ Hloop). split.
      * intros key b. rewrite lookup_insert. case_decide as Hkey; [|apply Hwell].
        intros [= <-]. subst key.
        destruct (Hwell _ _ Hk) as (H1 & H2 & H3 & H4 & H5 & H6 & H7).
        repeat split; try done; try apply H6.
        simpl. by destruct (model.tr_Rules t).
      * intros dm Hdm. destruct (Hmain dm Hdm) as (b & Hb & Hb1 & Hb2).
        rewrite lookup_insert. case_decide as Hkey.
        -- rewrite Hkey, Hb in Hk. injection Hk as ->.
           eexists. split; [reflexivity|]. split; [done|]. simpl.
           destruct (Hwell _ _ Hb) as (_ & _ & _ & H4 & _).
           by rewrite hd_error_app_rule.
        -- by exists b.
    + destruct (Replicas (d_Spec d)) as [replicas|] eqn:Hrep; [|done].
      intros Hloop [Hwell Hmain]. apply (IH _ Hloop). split.
      * intros key b. rewrite lookup_insert. case_decide as Hkey; [|apply Hwell].
        intros [= <-]. subst key. repeat split; try done.
        intros (dm & Hdm & Hname). destruct (Hmain dm Hdm) as (b & Hb & _).
        rewrite <- Hname, Hk in Hb. done.
      * intros dm Hdm. destruct (Hmain dm Hdm) as (b & Hb & Hb1 & Hb2).
        exists b. rewrite lookup_insert_ne; [done|]. intros Hname.
        rewrite <- Hname, Hk in Hb. done.
Qed.

Lemma translateMain_invariant (translations : gmap string Bound) :
  translateMain h dev root main = Some translations → invariant translations.
Proof.
  unfold translateMain. destruct main as [d|].
  - destruct (model.ToTranslationRule h dev dev) as [rule|] eqn:Hrule; [|done].
    destruct (Replicas (d_Spec d)) as [replicas|] eqn:Hrep; [|done].
    intros [= <-]. split.
    + intros key b [<- <-]%lookup_singleton_Some. repeat split; try done.
      intros _. by exists d.
    + intros dm [= <-]. eexists. rewrite lookup_singleton_eq. done.
  - intros [= <-]. split; [by intros ? ? ?%lookup_empty_Some | done].
Qed.

(** X16. In the map [GetTranslations] returns, every translation sits
    under the name of its deployment, carries the name of the root
    manifest, the schema version, the replica count of its deployment and
    at least one rule; it is interactive, and carries the marker, exactly
    when its deployment has the name of the deployment of the root. That
    deployment keeps its entry, with the rule of the root first. *)
Theorem GetTranslations_entries (translations : gmap string Bound) :
  h !! dev = Some root →
  GetTranslations h dev main c = Some (Ok translations) →
  (∀ key b, translations !! key = Some b → wellBound root main key b)
  ∧ (∀ d, main = Some d →
          ∃ b, translations !! Name (d_ObjectMeta d) = Some b
               ∧ b.1 = d
               ∧ hd_error (model.tr_Rules b.2) = model.ToTranslationRule h dev dev).
Proof.
  intros Hroot. unfold GetTranslations. rewrite Hroot.
  destruct (translateMain h dev root main) as [translations0|] eqn:Hmain; [|done].
  intros Hloop. apply (translateServices_invariant _ _ _ Hloop).
  by apply translateMain_invariant.
Qed.

(** X17. A service whose deployment is not found is passed over: the
    translations are those of the manifest without that service. *)
Theorem translateServices_skips_not_found
    (before after : list model.loc) (s : model.loc) (sd : model.Dev) (err : error)
    (translations : gmap string Bound) :
  h !! s = Some sd →
  deployments.Get sd (model.Namespace root) c = Err err →
  IsNotFound err = true →
  translateServices h dev root c (before ++ s :: after)%list translations
  = translateServices h dev root c (before ++ after)%list translations.
Proof.
  intros Hs Hget Hnf. revert translations.
  induction before as [|s0 before IH]; intros translations; simpl.
  - by rewrite Hs, Hget, Hnf.
  - destruct (h !! s0) as [sd0|]; [|by destruct (bool_decide _)].
    destruct (deployments.Get sd0 (model.Namespace root) c) as [d|err0];
      [|destruct (IsNotFound err0); [apply IH | done]].
    destruct (model.ToTranslationRule h s0 dev) as [rule|]; [|done].
    destruct (translations !! Name (d_ObjectMeta d)) as [[d0 t]|]; [apply IH|].
    destruct (Replicas (d_Spec d)); [apply IH | done].
Qed.

(** X18. A root manifest without namespace that has a service cannot be
    translated: the lookup of the first service fails for the empty
    namespace, and that error ends [GetTranslations]. *)
Theorem GetTranslations_empty_namespace
    (s : model.loc) (rest : list model.loc) (translations : gmap string Bound) :
  h !! dev = Some root →
  model.Namespace root = "" →
  model.Services root = s :: rest →
  translateMain h dev root main = Some translations →
  GetTranslations h dev main c = Some (Err (Errorf "empty namespace")).
Proof.
  intros Hroot Hns Hserv Hmain. unfold GetTranslations.
  rewrite Hroot, Hmain, Hserv. simpl. rewrite Hns.
  by destruct (h !! s).
Qed.

End GetTranslations_more.

(** * Properties of the defaults of a manifest *)

Section Defaults_more.
Import model manifest Notions.

Lemma defaultPaths_mount (mountPath workDir : string) :
  (defaultPaths mountPath workDir).1 ≠ "".
Proof.
  unfold defaultPaths.
  destruct (decide (mountPath = "")) as [->|Hm], (decide (workDir = "")) as [->|Hw];
    rewrite ?bool_decide_eq_true_2, ?bool_decide_eq_false_2 by done; simpl;
    rewrite ?bool_decide_eq_true_2, ?bool_decide_eq_false_2 by done; simpl; done.
Qed.

Lemma defaultPaths_declared (mountPath workDir : string) :
  mountPath ≠ "" → defaultPaths mountPath workDir = (mountPath, workDir).
Proof.
  intros Hm. unfold defaultPaths. rewrite (bool_decide_eq_false_2 _ Hm). simpl.
  rewrite (bool_decide_eq_false_2 _ Hm). by rewrite andb_false_r.
Qed.

Lemma defaultPullPolicy_set (pullPolicy : string) : defaultPullPolicy pullPolicy ≠ "".
Proof. unfold defaultPullPolicy. by case_bool_decide. Qed.

(** A property of a manifest that the two steps on a service keep is kept
    by the loop, at every address. *)
Lemma defaultServices_keeps (P : Dev → Prop) :
  (∀ x, P x → P (servicePaths x)) →
  (∀ x, P x → P (serviceReset x)) →
  ∀ services h h' e l x,
    defaultServices h services = Some (h', e) →
    h !! l = Some x → P x →
    ∃ x', h' !! l = Some x' ∧ P x'.
Proof.
  intros Hpaths Hreset. induction services as [|s services IH]; intros h h' e l x; simpl.
  - intros [= <- <-] Hl HP. by exists x.
  - destruct (h !! s) as [sd|] eqn:Hs; [|done].
    destruct (negb _ && _).
    + intros [= <- <-] Hl HP. destruct (decide (s = l)) as [->|Hne].
      * rewrite lookup_insert_eq. rewrite Hs in Hl. injection Hl as ->. eauto.
      * rewrite lookup_insert_ne by done. eauto.
    + intros Hloop Hl HP. destruct (decide (s = l)) as [->|Hne].
      * rewrite Hs in Hl. injection Hl as ->.
        eapply (IH _ _ _ l); [exact Hloop | apply lookup_insert_eq | auto].
      * eapply (IH _ _ _ l); [exact Hloop | by rewrite lookup_insert_ne | done].
Qed.

Lemma defaultServices_untouched (services : list loc) (h h' : gmap loc Dev)
    (e : option error) (l : loc) :
  l ∉ services → defaultServices h services = Some (h', e) → h' !! l = h !! l.
Proof.
  revert h. induction services as [|s services IH]; intros h Hl; simpl.
  - by intros [= <- <-].
  - apply not_elem_of_cons in Hl as [Hne Hl].
    destruct (h !! s) as [sd|]; [|done].
    destruct (negb _ && _).
    + intros [= <- <-]. by rewrite lookup_insert_ne.
    + intros Hloop. rewrite (IH _ Hl Hloop). by rewrite lookup_insert_ne.
Qed.

Lemma defaultServices_reset (services : list loc) (h h' : gmap loc Dev) (s : loc) :
  defaultServices h services = Some (h', None) →
  s ∈ services →
  ∃ sd', h' !! s = Some sd' ∧ reset sd'
         ∧ MountPath sd' ≠ "" ∧ ImagePullPolicy sd' ≠ "".
Proof.
  revert h. induction services as [|s0 services IH]; intros h; simpl.
  - by intros _ ?%elem_of_nil.
  - destruct (h !! s0) as [sd|] eqn:Hs0; [|done].
    destruct (negb _ && _); [done|].
    intros Hloop Hin. destruct (decide (s ∈ services)) as [Hrest|Hrest].
    + by apply (IH _ Hloop).
    + apply elem_of_cons in Hin as [->|?]; [|done].
      rewrite (defaultServices_untouched _ _ _ _ _ Hrest Hloop), lookup_insert_eq.
      eexists. split; [reflexivity|]. split; [done|]. simpl.
      split; [apply defaultPaths_mount | apply defaultPullPolicy_set].
Qed.

(** The names and labels in [h] are those of [h0]. *)
Let agree (h0 h : gmap loc Dev) : Prop :=
  ∀ l x0, h0 !! l = Some x0 → ∃ x, h !! l = Some x ∧ Name x = Name x0 ∧ Labels x = Labels x0.

Lemma defaultServices_outcome (h0 : gmap loc Dev) (services : list loc) (h : gmap loc Dev) :
  agree h0 h →
  (∀ s, s ∈ services → is_Some (h0 !! s)) →
  match defaultServices h services with
  | Some (_, Some _) =>
      ∃ s sd, s ∈ services ∧ h0 !! s = Some sd ∧ Name sd ≠ "" ∧ Labels sd ≠ ∅
  | Some (_, None) =>
      ¬ ∃ s sd, s ∈ services ∧ h0 !! s = Some sd ∧ Name sd ≠ "" ∧ Labels sd ≠ ∅
  | None => False
  end.
Proof.
  revert h. induction services as [|s services IH]; intros h Hagree Hvalid; simpl.
  - by intros (s & sd & ?%elem_of_nil & _).
  - destruct (Hvalid s) as [sd0 Hs0]; [by left|].
    destruct (Hagree _ _ Hs0) as (sd & Hs & Hname & Hlabels). rewrite Hs.
    destruct (negb _ && _) eqn:Hboth.
    + exists s, sd0. split; [by left|]. split; [done|].
      apply andb_true_iff in Hboth as [Hn Hl]. simpl in Hn, Hl.
      rewrite Hname in Hn. rewrite Hlabels in Hl.
      apply negb_true_iff, bool_decide_eq_false in Hn. split; [done|].
      intros Hempty. rewrite Hempty, map_size_empty in Hl. done.
    + assert (agree h0 (<[s := serviceReset (servicePaths sd)]> h)) as Hagree'.
      { intros l x0 Hl. destruct (decide (s = l)) as [->|Hne].
        - rewrite lookup_insert_eq. eexists. split; [reflexivity|]. simpl.
          rewrite Hs0 in Hl. by injection Hl as <-.
        - rewrite lookup_insert_ne by done. by apply Hagree. }
      specialize (IH _ Hagree' (λ s' Hs', Hvalid s' (list_elem_of_further _ _ _ Hs'))).
      assert (¬ (Name sd0 ≠ "" ∧ Labels sd0 ≠ ∅)) as Hnot.
      { intros [Hn Hl]. apply andb_false_iff in Hboth as [Hb|Hb]; simpl in Hb.
        - rewrite Hname in Hb. apply negb_false_iff, bool_decide_eq_true in Hb. done.
        - rewrite Hlabels in Hb. apply Nat.ltb_ge in Hb.
          apply Hl, map_size_empty_iff. lia. }
      destruct (defaultServices _ services) as [[h' [e|]]|]; [| |done].
      * destruct IH as (s' & sd' & Hin & ?). exists s', sd'. split; [by right | done].
      * intros (s' & sd' & [->|Hin]%elem_of_cons & Hs' & Hn & Hl).
        -- rewrite Hs0 in Hs'. injection Hs' as <-. by apply Hnot.
        -- apply IH. by exists s', sd'.
Qed.

Variable uniqueStrings : list string → list string.

Variables (h : gmap loc Dev) (dev : loc) (d : Dev).
Hypothesis Hdev : h !! dev = Some d.

(** X19. After [setDefaults], with or without an error, the root manifest
    has a command, a mount path and a pull policy; a declared command and a
    declared mount path are kept, and name, labels, container, image,
    environment and sub-path are never touched. *)
Theorem setDefaults_root (h' : gmap loc Dev) (e : option error) :
  setDefaults uniqueStrings h dev = Some (h', e) →
  ∃ d', h' !! dev = Some d'
        ∧ Command d' ≠ [] ∧ MountPath d' ≠ "" ∧ ImagePullPolicy d' ≠ ""
        ∧ (Command d ≠ [] → Command d' = Command d)
        ∧ (MountPath d ≠ "" → MountPath d' = MountPath d)
        ∧ sameDeclaration d' d.
Proof.
  unfold setDefaults. rewrite Hdev. intros Hloop.
  apply (defaultServices_keeps
           (λ x, Command x ≠ [] ∧ MountPath x ≠ "" ∧ ImagePullPolicy x ≠ ""
                 ∧ (Command d ≠ [] → Command x = Command d)
                 ∧ (MountPath d ≠ "" → MountPath x = MountPath d)
                 ∧ sameDeclaration x d)
           ) with (l := dev) (x := rootDefaults uniqueStrings d) in Hloop; [done| | | |].
  - intros x (H1 & H2 & H3 & H4 & H5 & H6). simpl.
    rewrite (defaultPaths_declared _ _ H2). simpl.
    split; [done|]. split; [done|]. split; [apply defaultPullPolicy_set|]. done.
  - intros x (H1 & H2 & H3 & H4 & H5 & H6). done.
  - apply lookup_insert_eq.
  - simpl. split; [by destruct (Command d)|]. split; [apply defaultPaths_mount|].
    split; [apply defaultPullPolicy_set|]. split; [by destruct (Command d)|].
    split; [|done]. intros Hm. by rewrite (defaultPaths_declared _ _ Hm).
Qed.

(** X20. When [setDefaults] succeeds, every service has lost its
    namespace, volumes, forwards, services and resources, and has a mount
    path and a pull policy. A service other than the root keeps its name,
    labels, container, image, environment, sub-path and its command: a
    service without a command gets none. *)
Theorem setDefaults_services (h' : gmap loc Dev) (s : loc) :
  setDefaults uniqueStrings h dev = Some (h', None) →
  s ∈ Services d →
  ∃ sd', h' !! s = Some sd'
         ∧ reset sd' ∧ MountPath sd' ≠ "" ∧ ImagePullPolicy sd' ≠ ""
         ∧ (∀ sd, h !! s = Some sd → s ≠ dev →
                  sameDeclaration sd' sd ∧ Command sd' = Command sd).
Proof.
  unfold setDefaults. rewrite Hdev. simpl. intros Hloop Hin.
  destruct (defaultServices_reset _ _ _ _ Hloop Hin) as (sd' & Hs' & Hreset & Hm & Hp).
  exists sd'. split; [done|]. split; [done|]. split; [done|]. split; [done|].
  intros sd Hs Hne.
  apply (defaultServices_keeps (λ x, sameDeclaration x sd ∧ Command x = Command sd))
    with (l := s) (x := sd) in Hloop; [|done|done| |done].
  - destruct Hloop as (x' & Hx' & ?). rewrite Hs' in Hx'. by injection Hx' as <-.
  - by rewrite lookup_insert_ne.
Qed.

(** X21. With valid service pointers [setDefaults] always returns, and it
    fails exactly when a service declares a name together with labels. *)
Theorem setDefaults_fails_iff :
  (∀ s, s ∈ Services d → is_Some (h !! s)) →
  (∃ r, setDefaults uniqueStrings h dev = Some r)
  ∧ ((∃ h' e, setDefaults uniqueStrings h dev = Some (h', Some e))
     ↔ ∃ s sd, s ∈ Services d ∧ h !! s = Some sd ∧ Name sd ≠ "" ∧ Labels sd ≠ ∅).
Proof.
  intros Hvalid. unfold setDefaults. rewrite Hdev. simpl.
  assert (agree h (<[dev := rootDefaults uniqueStrings d]> h)) as Hagree.
  { intros l x0 Hl. destruct (decide (dev = l)) as [<-|Hne].
    - rewrite lookup_insert_eq. eexists. split; [reflexivity|].
      rewrite Hdev in Hl. by injection Hl as <-.
    - rewrite lookup_insert_ne by done. by exists x0. }
  pose proof (defaultServices_outcome h (Services d) _ Hagree Hvalid) as Hout.
  destruct (defaultServices _ (Services d)) as [[h' [e|]]|]; [| |done].
  - split; [by eexists|]. split; [done|]. intros _. by exists h', e.
  - split; [by eexists|]. split; [by intros (? & ? & [=])|done].
Qed.

End Defaults_more.

(** * Properties of names, validation and remote mode *)

Section Names_more.
Import model manifest Spec Notions.

Lemma kubeChar_not_slash (c : ascii) : kubeChar c = true → Ascii.eqb c "/" = false.
Proof. destruct c as [[] [] [] [] [] [] [] []]; vm_compute; done. Qed.

Lemma kube_name_noSlash (s : string) :
  ValidKubeNameRegex_MatchString s = false → noSlash s = true.
Proof.
  unfold ValidKubeNameRegex_MatchString.
  induction s as [|c s IH]; simpl; [done|].
  intros [Hc Hs]%orb_false_iff. apply negb_false_iff in Hc.
  by rewrite (kubeChar_not_slash _ Hc), (IH Hs).
Qed.

Lemma kube_name_plain (s : string) :
  s ≠ "" → ValidKubeNameRegex_MatchString s = false → plain s.
Proof.
  intros Hne Hm. split; [done|]. split; [|split].
  - intros ->. vm_compute in Hm. done.
  - intros ->. vm_compute in Hm. done.
  - by apply kube_name_noSlash.
Qed.

Lemma validatePullPolicy_None (pullPolicy : string) :
  validatePullPolicy pullPolicy = None ↔ validPullPolicy pullPolicy.
Proof.
  unfold validatePullPolicy, validPullPolicy.
  repeat case_bool_decide; split; try done; tauto.
Qed.

Lemma validateServices_ok (h : gmap loc Dev) (services : list loc) :
  validateServices h services = Some None →
  ∀ s sd, s ∈ services → h !! s = Some sd → validPullPolicy (ImagePullPolicy sd).
Proof.
  induction services as [|s0 services IH]; simpl.
  - by intros _ s sd ?%elem_of_nil.
  - destruct (h !! s0) as [sd0|] eqn:Hs0; [|done].
    destruct (validatePullPolicy (ImagePullPolicy sd0)) eqn:Hp; [done|].
    intros Hrest s sd [->|Hin]%elem_of_cons Hs.
    + rewrite Hs0 in Hs. injection Hs as <-. by apply validatePullPolicy_None.
    + by apply (IH Hrest s).
Qed.

(** X22. A manifest [validate] accepts has a name that is a plain path
    segment, without a dash at either end, and valid pull policies in the
    root and in every service. The sub-paths of such a manifest without
    sub-path are therefore the strings [<name>/data-<i>]. *)
Theorem validate_accepts (h : gmap loc Dev) (dev : loc) (d : Dev) :
  h !! dev = Some d →
  validate h dev = Some None →
  plain (Name d)
  ∧ strings.HasPrefix (Name d) "-" = false
  ∧ HasSuffix (Name d) "-" = false
  ∧ validPullPolicy (ImagePullPolicy d)
  ∧ (∀ s sd, s ∈ Services d → h !! s = Some sd → validPullPolicy (ImagePullPolicy sd))
  ∧ (SubPath d = "" →
     ∀ i subPath, FullSubPath d i subPath = Name d +:+ "/data-" +:+ fmt.itoa i).
Proof.
  intros Hdev. unfold validate. rewrite Hdev.
  case_bool_decide as Hname; [done|].
  destruct (ValidKubeNameRegex_MatchString (Name d)) eqn:Hm; [done|].
  destruct (strings.HasPrefix (Name d) "-") eqn:Hpre; [done|].
  destruct (HasSuffix (Name d) "-") eqn:Hsuf; [done|]. simpl.
  destruct (validatePullPolicy (ImagePullPolicy d)) eqn:Hp; [done|].
  intros Hserv.
  assert (plain (Name d)) as Hplain by (by apply kube_name_plain).
  split; [done|]. split; [done|]. split; [done|].
  split; [by apply validatePullPolicy_None|].
  split; [by apply validateServices_ok|].
  intros Hsub i subPath. unfold FullSubPath. rewrite bool_decide_eq_true_2 by done.
  rewrite Join_plain; [done|done|].
  constructor; [done | constructor; [apply plain_data | constructor]].
Qed.

Lemma substring_length (n : nat) (s : string) :
  String.length (String.substring 0 n s) = Nat.min n (String.length s).
Proof.
  revert s. induction n as [|n IH]; intros [|c s]; simpl; try done. by rewrite IH.
Qed.

Lemma substring_all (n : nat) (s : string) :
  (String.length s ≤ n)%nat → String.substring 0 n s = s.
Proof.
  revert s. induction n as [|n IH]; intros [|c s]; simpl; try done; try lia.
  intros Hl. rewrite IH; [done | lia].
Qed.

(** X23. The name of the stateful set is [okteto-] followed by the first
    45 bytes of the name of the manifest: it never exceeds 52 bytes, it is
    [okteto-<name>] for a name of at most 45 bytes, and two such names give
    different stateful sets unless they are equal. *)
Theorem GetStatefulSetName_bounded (dev : Dev) :
  (String.length (GetStatefulSetName dev) ≤ 52)%nat
  ∧ GetStatefulSetName dev = "okteto-" +:+ String.substring 0 45 (Name dev)
  ∧ ((String.length (Name dev) ≤ 45)%nat →
     GetStatefulSetName dev = "okteto-" +:+ Name dev
     ∧ ∀ other, (String.length (Name other) ≤ 45)%nat →
                GetStatefulSetName other = GetStatefulSetName dev →
                Name other = Name dev).
Proof.
  assert (GetStatefulSetName dev = "okteto-" +:+ String.substring 0 45 (Name dev)) as Heq.
  { unfold GetStatefulSetName. destruct (52 <? _)%nat eqn:Hlen; [done|].
    apply Nat.ltb_ge in Hlen.
    change (7 + String.length (Name dev) ≤ 52)%nat in Hlen.
    rewrite substring_all; [done | lia]. }
  split; [|split; [done|]].
  - rewrite Heq.
    change (7 + String.length (String.substring 0 45 (Name dev)) ≤ 52)%nat.
    rewrite substring_length. lia.
  - intros Hshort. rewrite Heq, (substring_all _ _ Hshort). split; [done|].
    intros other Hother.
    assert (GetStatefulSetName other = "okteto-" +:+ Name other) as ->.
    { unfold GetStatefulSetName. destruct (52 <? _)%nat eqn:Hlen; [|done].
      apply Nat.ltb_lt in Hlen.
      change (52 < 7 + String.length (Name other))%nat in Hlen. lia. }
    intros Hsame. injection Hsame as Hsame. exact Hsame.
Qed.

Lemma append_nonempty (a b : string) : a ≠ "" → a +:+ b ≠ "".
Proof. by destruct a. Qed.

Lemma selector_grows (l : list (string * string)) (labels : string) :
  labels ≠ "" →
  fold_left
    (fun labels kv =>
       if bool_decide (labels = "") then fst kv +:+ "=" +:+ snd kv
       else labels +:+ ", " +:+ fst kv +:+ "=" +:+ snd kv) l labels ≠ "".
Proof.
  revert labels. induction l as [|kv l IH]; intros labels Hne; simpl; [done|].
  apply IH. rewrite bool_decide_eq_false_2 by done. by apply append_nonempty.
Qed.

(** X24. The selector of a manifest is empty exactly when the manifest has
    no labels: the list [Get] asks for, which it does only for a manifest
    with labels, never carries the selector that matches everything. *)
Theorem LabelsSelector_empty_iff (dev : Dev) :
  LabelsSelector dev = "" ↔ Labels dev = ∅.
Proof.
  unfold LabelsSelector. split.
  - intros Hsel. apply map_to_list_empty_iff.
    destruct (map_to_list (Labels dev)) as [|[k v] l]; [done|].
    exfalso. revert Hsel. simpl. apply selector_grows.
    destruct k; done.
  - intros ->. by rewrite map_to_list_empty.
Qed.

Variable uniqueStrings : list string → list string.

(** X25. [LoadRemote] replaces the command by the remote binary, adds the
    forward to port 22000 after the declared ones and appends [SYS_PTRACE]
    to the declared capabilities without looking for it there: a second
    call appends it again. The rule built for the root afterwards still
    has the command [tail], and carries the capability. *)
Theorem LoadRemote_adds (d : Dev) (localPort : Z) :
  let remote := LoadRemote uniqueStrings d localPort in
  Command remote = ["/var/okteto/bin/remote"]
  ∧ Forward_ remote = (Forward_ d ++ [{| Local := localPort; Remote := 22000 |}])%list
  ∧ Add (declaredCapabilities remote) = (Add (declaredCapabilities d) ++ ["SYS_PTRACE"])%list
  ∧ Drop (declaredCapabilities remote) = Drop (declaredCapabilities d)
  ∧ (∀ port, Add (declaredCapabilities (LoadRemote uniqueStrings remote port))
             = (Add (declaredCapabilities d) ++ ["SYS_PTRACE"; "SYS_PTRACE"])%list)
  ∧ (∀ (h : gmap loc Dev) (dev : loc),
       ∃ rule,
         ToTranslationRule (<[dev := remote]> h) dev dev = Some rule
         ∧ r_Command rule = Some ["tail"]
         ∧ r_SecurityContext rule = SecurityContext_ remote
         ∧ "SYS_PTRACE" ∈ Add (declaredCapabilities remote)).
Proof.
  intros remote. subst remote. unfold declaredCapabilities. simpl.
  split; [done|]. split; [done|].
  assert (∀ sc : option SecurityContext,
            Add (default {| Add := []; Drop := [] |}
                   (Capabilities_ (default {| RunAsUser := None; RunAsGroup := None;
                                              FSGroup := None; Capabilities_ := None |} sc)))
            = Add match sc with
                  | Some sc => default {| Add := []; Drop := [] |} (Capabilities_ sc)
                  | None => {| Add := []; Drop := [] |}
                  end
            ∧ Drop (default {| Add := []; Drop := [] |}
                      (Capabilities_ (default {| RunAsUser := None; RunAsGroup := None;
                                                 FSGroup := None; Capabilities_ := None |} sc)))
              = Drop match sc with
                     | Some sc => default {| Add := []; Drop := [] |} (Capabilities_ sc)
                     | None => {| Add := []; Drop := [] |}
                     end) as Hcaps by (by intros [sc|]).
  destruct (Hcaps (SecurityContext_ d)) as [Ha Hd].
  split; [by rewrite Ha|]. split; [by rewrite Hd|]. split; [|].
  - intros port. by rewrite Ha, <- app_assoc.
  - intros h dev. unfold ToTranslationRule. rewrite lookup_insert_eq.
    rewrite bool_decide_eq_true_2 by done.
    eexists. split; [reflexivity|]. split; [done|]. split; [done|].
    apply elem_of_app. right. by left.
Qed.

End Names_more.

(** * The further properties on the cases *)

Section Witnesses_more.
Import metav1 apiv1 appsv1 pods Spec Notions Examples Cases.

Let label := OktetoInteractiveDevLabel.
Let detached := OktetoDetachedDevLabel +:+ "=web".



Lemma attempt_ignores_deployment_witness :
  ((0 mod 10)%nat ≠ 0%nat
   ∨ ∃ p items, ListPods (cluster (ready 0%nat)) (model.Namespace web)
                  (label +:+ "=" +:+ model.Name web) = Ok (p :: items))
  ∧ attempt readyStarved web label false 0 = attempt ready web label false 0.
Proof.
  assert ((0 mod 10)%nat ≠ 0%nat
          ∨ ∃ p items, ListPods (cluster (ready 0%nat)) (model.Namespace web)
                         (label +:+ "=" +:+ model.Name web) = Ok (p :: items)) as H
    by (right; exists running, []; reflexivity).
  split; [exact H|].
  apply (attempt_ignores_deployment ready web label false readyStarved 0 H);
    reflexivity.
Defined.


Lemma waitUntilRunning_failed_pod_witness :
  (0 < 60)%nat
  ∧ waitFrom broken "dev" detached 0 ∅ 0 = Some ∅
  ∧ ListPods (broken 0%nat) "dev" detached
    = Ok ([readyPod] ++ pod "worker-b" PodFailed [] :: [])%list
  ∧ Forall (λ p, failed p = false) [readyPod]
  ∧ failed (pod "worker-b" PodFailed []) = true
  ∧ waitUntilRunning broken "dev" detached
    = ([CallListPods "dev" detached], Some (Errorf "Pod worker-b failed to start")).
Proof.
  assert (0 < 60)%nat as H1 by lia.
  assert (waitFrom broken "dev" detached 0 ∅ 0 = Some ∅) as H2 by reflexivity.
  assert (ListPods (broken 0%nat) "dev" detached
          = Ok ([readyPod] ++ pod "worker-b" PodFailed [] :: [])%list) as H3 by reflexivity.
  assert (Forall (λ p, failed p = false) [readyPod]) as H4
    by (apply Forall_cons_2; [reflexivity | apply Forall_nil_2]).
  assert (failed (pod "worker-b" PodFailed []) = true) as H5 by reflexivity.
  split; [exact H1|]. split; [exact H2|]. split; [exact H3|]. split; [exact H4|].
  split; [exact H5|].
  exact (waitUntilRunning_failed_pod broken "dev" detached 0 ∅ [readyPod] []
           (pod "worker-b" PodFailed []) H1 H2 H3 H4 H5).
Defined.

Lemma Restart_deletes_in_order_witness :
  ListPods (clusterOf [running] (Ok (deployment []))) (model.Namespace web)
    (OktetoDetachedDevLabel +:+ "=" +:+ model.Name web) = Ok [running]
  ∧ Forall (λ p, DeletePod (clusterOf [running] (Ok (deployment [])))
                   (model.Namespace web) (Name (p_ObjectMeta p)) = None) [running]
  ∧ Restart (clusterOf [running] (Ok (deployment []))) drained web
    = ([CallListPods "dev" detached; CallDeletePod "dev" "web-7d9f";
        CallListPods "dev" detached], None).
Proof.
  assert (ListPods (clusterOf [running] (Ok (deployment []))) (model.Namespace web)
            (OktetoDetachedDevLabel +:+ "=" +:+ model.Name web) = Ok [running]) as H1
    by reflexivity.
  assert (Forall (λ p, DeletePod (clusterOf [running] (Ok (deployment [])))
                   (model.Namespace web) (Name (p_ObjectMeta p)) = None) [running]) as H2
    by (apply Forall_cons_2; [reflexivity | apply Forall_nil_2]).
  split; [exact H1|]. split; [exact H2|].
  etransitivity;
    [exact (Restart_deletes_in_order (clusterOf [running] (Ok (deployment [])))
              drained web [running] H1 H2) | reflexivity].
Defined.

Lemma Restart_stops_at_failed_deletion_witness :
  ListPods refusing (model.Namespace web)
    (OktetoDetachedDevLabel +:+ "=" +:+ model.Name web)
  = Ok ([pod "worker-a" PodRunning []] ++ pod "worker-b" PodRunning []
        :: [pod "worker-c" PodRunning []])%list
  ∧ Forall (λ p, DeletePod refusing (model.Namespace web) (Name (p_ObjectMeta p)) = None)
      [pod "worker-a" PodRunning []]
  ∧ DeletePod refusing (model.Namespace web) "worker-b"
    = Some (Errorf "pods worker-b is forbidden")
  ∧ Restart refusing drained web
    = ([CallListPods "dev" detached; CallDeletePod "dev" "worker-a";
        CallDeletePod "dev" "worker-b"],
       Some (Errorf "error deleting kubernetes service: pods worker-b is forbidden")).
Proof.
  assert (ListPods refusing (model.Namespace web)
            (OktetoDetachedDevLabel +:+ "=" +:+ model.Name web)
          = Ok ([pod "worker-a" PodRunning []] ++ pod "worker-b" PodRunning []
                :: [pod "worker-c" PodRunning []])%list) as H1 by reflexivity.
  assert (Forall (λ p, DeletePod refusing (model.Namespace web)
                         (Name (p_ObjectMeta p)) = None)
            [pod "worker-a" PodRunning []]) as H2
    by (apply Forall_cons_2; [reflexivity | apply Forall_nil_2]).
  assert (DeletePod refusing (model.Namespace web) "worker-b"
          = Some (Errorf "pods worker-b is forbidden")) as H3 by reflexivity.
  split; [exact H1|]. split; [exact H2|]. split; [exact H3|].
  etransitivity;
    [exact (Restart_stops_at_failed_deletion refusing drained web
              [pod "worker-a" PodRunning []] [pod "worker-c" PodRunning []]
              (pod "worker-b" PodRunning []) _ H1 H2 H3) | reflexivity].
Defined.

End Witnesses_more.


Section Witnesses_deployments.
Import metav1 apiv1 appsv1 deployments workloads Notions Examples Cases.

Let off :=
  DevModeOff "dev.okteto.com/translation" "dev.okteto.com/deployment"
    "dev.okteto.com/developer" "dev.okteto.com/version" "dev.okteto.com"
    decodeTranslation decodeDeployment.

Let quiet : Clientset := clusterOf [] (Ok inDevMode).

Lemma DevModeOff_turns_dev_mode_off_witness :
  getAnnotation (t_ObjectMeta (Template (d_Spec inDevMode))) "dev.okteto.com/translation"
    ≠ ""
  ∧ decodeTranslation
      (getAnnotation (t_ObjectMeta (Template (d_Spec inDevMode)))
         "dev.okteto.com/translation") = Ok storedTranslation
  ∧ IsDevModeOn "dev.okteto.com" inDevMode = true
  ∧ IsDevModeOn "dev.okteto.com" (o_object (off inDevMode quiet)) = false.
Proof.
  assert (getAnnotation (t_ObjectMeta (Template (d_Spec inDevMode)))
            "dev.okteto.com/translation" ≠ "") as H1 by discriminate.
  assert (decodeTranslation
            (getAnnotation (t_ObjectMeta (Template (d_Spec inDevMode)))
               "dev.okteto.com/translation") = Ok storedTranslation) as H2 by reflexivity.
  split; [exact H1|]. split; [exact H2|]. split; [reflexivity|].
  exact (proj1 (DevModeOff_turns_dev_mode_off
                  "dev.okteto.com/translation" "dev.okteto.com/deployment"
                  "dev.okteto.com/developer" "dev.okteto.com/version" "dev.okteto.com"
                  decodeTranslation decodeDeployment inDevMode storedTranslation
                  H1 H2 quiet)).
Defined.

Lemma DevModeOff_twice_witness :
  getAnnotation (t_ObjectMeta (Template (d_Spec inDevMode))) "dev.okteto.com/translation"
    ≠ ""
  ∧ decodeTranslation
      (getAnnotation (t_ObjectMeta (Template (d_Spec inDevMode)))
         "dev.okteto.com/translation") = Ok storedTranslation
  ∧ getAnnotation (d_ObjectMeta inDevMode) "dev.okteto.com/deployment" = ""
  ∧ off (o_object (off inDevMode quiet)) quiet
    = {| o_object := o_object (off inDevMode quiet); o_calls := []; o_err := None |}.
Proof.
  assert (getAnnotation (t_ObjectMeta (Template (d_Spec inDevMode)))
            "dev.okteto.com/translation" ≠ "") as H1 by discriminate.
  assert (decodeTranslation
            (getAnnotation (t_ObjectMeta (Template (d_Spec inDevMode)))
               "dev.okteto.com/translation") = Ok storedTranslation) as H2 by reflexivity.
  assert (getAnnotation (d_ObjectMeta inDevMode) "dev.okteto.com/deployment" = "") as H3
    by reflexivity.
  split; [exact H1|]. split; [exact H2|]. split; [exact H3|].
  exact (DevModeOff_twice
           "dev.okteto.com/translation" "dev.okteto.com/deployment"
           "dev.okteto.com/developer" "dev.okteto.com/version" "dev.okteto.com"
           decodeTranslation decodeDeployment inDevMode storedTranslation
           H1 H2 quiet quiet H3).
Defined.

Let serving : Clientset := clusterOf [] (Ok (deployment [])).
Let missing : Clientset := clusterOf [] (Err (Errorf "deployments.apps worker not found")).

Lemma GetTranslations_entries_witness :
  manifests !! 0%nat = Some web
  ∧ ∃ translations,
      GetTranslations manifests 0 (Some (deployment [])) serving = Some (Ok translations)
      ∧ (∀ key b, translations !! key = Some b →
                  wellBound web (Some (deployment [])) key b)
      ∧ ∃ b, translations !! "web" = Some b
             ∧ b.1 = deployment []
             ∧ hd_error (model.tr_Rules b.2) = model.ToTranslationRule manifests 0 0.
Proof.
  assert (manifests !! 0%nat = Some web) as H1 by reflexivity.
  split; [exact H1|].
  destruct (GetTranslations manifests 0 (Some (deployment [])) serving)
    as [[translations|err]|] eqn:H2; [|vm_compute in H2; discriminate..].
  exists translations. split; [reflexivity|].
  destruct (GetTranslations_entries manifests 0 web (Some (deployment [])) serving
              translations H1 H2) as [Hwell Hmain].
  split; [exact Hwell|]. exact (Hmain (deployment []) eq_refl).
Defined.

Lemma translateServices_skips_not_found_witness :
  manifests !! 1%nat = Some worker
  ∧ deployments.Get worker (model.Namespace web) missing
    = Err (Errorf "deployments.apps worker not found")
  ∧ IsNotFound (Errorf "deployments.apps worker not found") = true
  ∧ translateServices manifests 0 web missing ([] ++ 1%nat :: [])%list ∅
    = translateServices manifests 0 web missing ([] ++ [])%list ∅.
Proof.
  assert (manifests !! 1%nat = Some worker) as H1 by reflexivity.
  assert (deployments.Get worker (model.Namespace web) missing
          = Err (Errorf "deployments.apps worker not found")) as H2 by reflexivity.
  assert (IsNotFound (Errorf "deployments.apps worker not found") = true) as H3
    by reflexivity.
  split; [exact H1|]. split; [exact H2|]. split; [exact H3|].
  exact (translateServices_skips_not_found manifests 0 web missing [] [] 1%nat worker
           _ ∅ H1 H2 H3).
Defined.

Lemma GetTranslations_empty_namespace_witness :
  unplacedManifests !! 0%nat = Some unplaced
  ∧ model.Namespace unplaced = ""
  ∧ model.Services unplaced = [1%nat]
  ∧ translateMain unplacedManifests 0 unplaced None = Some ∅
  ∧ GetTranslations unplacedManifests 0 None serving
    = Some (Err (Errorf "empty namespace")).
Proof.
  assert (unplacedManifests !! 0%nat = Some unplaced) as H1 by reflexivity.
  assert (model.Namespace unplaced = "") as H2 by reflexivity.
  assert (model.Services unplaced = [1%nat]) as H3 by reflexivity.
  assert (translateMain unplacedManifests 0 unplaced None = Some ∅) as H4 by reflexivity.
  split; [exact H1|]. split; [exact H2|]. split; [exact H3|]. split; [exact H4|].
  exact (GetTranslations_empty_namespace unplacedManifests 0 unplaced None serving
           1%nat [] ∅ H1 H2 H3 H4).
Defined.

End Witnesses_deployments.

Section Witnesses_manifest.
Import model manifest Spec Notions Examples Cases.

Lemma setDefaults_root_witness :
  parsed !! 0%nat = Some bare
  ∧ ∃ h', setDefaults dedup parsed 0 = Some (h', None)
          ∧ ∃ d', h' !! 0%nat = Some d'
                  ∧ Command d' ≠ [] ∧ MountPath d' ≠ "" ∧ ImagePullPolicy d' ≠ "".
Proof.
  assert (parsed !! 0%nat = Some bare) as H1 by reflexivity.
  split; [exact H1|].
  destruct (setDefaults dedup parsed 0) as [[h' [e|]]|] eqn:H2;
    [vm_compute in H2; discriminate | | vm_compute in H2; discriminate].
  exists h'. split; [reflexivity|].
  destruct (setDefaults_root dedup parsed 0 bare H1 h' None H2)
    as (d' & Hd' & Hc & Hm & Hp & _).
  exists d'. split; [exact Hd'|]. split; [exact Hc|]. split; [exact Hm | exact Hp].
Defined.

Lemma setDefaults_services_witness :
  parsed !! 0%nat = Some bare
  ∧ 1%nat ∈ Services bare
  ∧ ∃ h', setDefaults dedup parsed 0 = Some (h', None)
          ∧ ∃ sd', h' !! 1%nat = Some sd' ∧ reset sd' ∧ Command sd' = Command byLabel.
Proof.
  assert (parsed !! 0%nat = Some bare) as H1 by reflexivity.
  assert (1%nat ∈ Services bare) as H3 by (apply list_elem_of_here).
  split; [exact H1|]. split; [exact H3|].
  destruct (setDefaults dedup parsed 0) as [[h' [e|]]|] eqn:H2;
    [vm_compute in H2; discriminate | | vm_compute in H2; discriminate].
  exists h'. split; [reflexivity|].
  destruct (setDefaults_services dedup parsed 0 bare H1 h' 1%nat H2 H3)
    as (sd' & Hs' & Hreset & _ & _ & Hsame).
  exists sd'. split; [exact Hs'|]. split; [exact Hreset|].
  assert (1 ≠ 0)%nat as Hne by lia.
  exact (proj2 (Hsame byLabel eq_refl Hne)).
Defined.

Lemma setDefaults_fails_iff_witness :
  misparsed !! 0%nat = Some bare
  ∧ (∀ s, s ∈ Services bare → is_Some (misparsed !! s))
  ∧ ∃ h' e, setDefaults dedup misparsed 0 = Some (h', Some e).
Proof.
  assert (misparsed !! 0%nat = Some bare) as H1 by reflexivity.
  assert (∀ s, s ∈ Services bare → is_Some (misparsed !! s)) as H2.
  { intros s Hs. apply list_elem_of_singleton in Hs. rewrite Hs.
    exists twiceNamed. reflexivity. }
  split; [exact H1|]. split; [exact H2|].
  apply (proj2 (proj2 (setDefaults_fails_iff dedup misparsed 0 bare H1 H2))).
  exists 1%nat, twiceNamed. split; [apply list_elem_of_here|].
  split; [reflexivity|]. split; [discriminate|].
  intros Hempty. assert (size (Labels twiceNamed) = 0%nat) as Hsize
    by (rewrite Hempty; apply map_size_empty).
  vm_compute in Hsize. discriminate.
Defined.

Lemma validate_accepts_witness :
  manifests !! 0%nat = Some web
  ∧ validate manifests 0 = Some None
  ∧ plain (Name web)
  ∧ FullSubPath web 3 "/ignored" = "web/data-3".
Proof.
  assert (manifests !! 0%nat = Some web) as H1 by reflexivity.
  assert (validate manifests 0 = Some None) as H2 by reflexivity.
  split; [exact H1|]. split; [exact H2|].
  destruct (validate_accepts manifests 0 web H1 H2) as (Hplain & _ & _ & _ & _ & Hsub).
  split; [exact Hplain|].
  etransitivity; [exact (Hsub eq_refl 3%nat "/ignored") | reflexivity].
Defined.

End Witnesses_manifest.
